(** * directory-fhir: the directory-to-FHIR synchronisation script

    A shallow embedding of [main.py]: the three entity builders
    ([populate_biobank_from_json], [populate_network_from_json],
    [populate_collection_from_json]), the helper [fetch_quality_names] and
    the three entry points ([sync_biobanks], [sync_networks],
    [sync_collections]), and the function [fetch_organization_fhir_id],
    which none of them calls.

    Python values are an inductive type, Python exceptions an error monad,
    [print], the HTTP request and the uploads a state monad over the outside
    world that also records what was done.  The libraries the script imports
    ([miabis_model], [json], [requests], [blaze_client]) are not part of the
    script; what the script needs from them is collected in three
    interfaces, [MiabisModel], [Json] and [Remote]. *)

From Stdlib Require Import ZArith String Ascii List DecimalString.
From Stdlib.Floats Require Import SpecFloat.
From stdpp Require Import base option list strings.
Import ListNotations.

#[local] Set Warnings "-register-all".
#[local] Open Scope string_scope.

(** ** Python values *)

(** What [json.loads] and [response.json()] can return ([None], [bool],
    [int], [float], [str], [list], [dict]), and the members of the
    enumerations of [miabis_model].  A [dict] is the list of its items in
    insertion order; lookup takes the first binding of a key.  A [str] is the
    string of its UTF-8 bytes.  [VEnum cls name] is the member [name] of the
    enumeration class [cls]; the enumerations are taken to be plain
    [enum.Enum] classes, whose members are truthy and have no method
    [get]. *)
Inductive value : Type :=
| VNone
| VBool (b : bool)
| VInt (z : Z)
| VFloat (f : spec_float)
| VStr (s : string)
| VList (items : list value)
| VDict (items : list (string * value))
| VEnum (cls name : string).

(** Exceptions, by class.  [ValueError] stands for the class and its
    subclasses and carries [str(e)]; [OtherError] is any class that is
    neither one of the first three nor derived from [ValueError]. *)
Inductive exn : Type :=
| KeyError
| AttributeError
| TypeError
| ValueError (msg : string)
| OtherError (cls : string).

(** A computation that returns or raises. *)
Inductive res (A : Type) : Type :=
| Ok (a : A)
| Raise (e : exn).
Arguments Ok {A} a.
Arguments Raise {A} e.

#[global] Instance res_ret : MRet res := @Ok.
#[global] Instance res_bind : MBind res := fun A B f m =>
  match m with
  | Ok a => f a
  | Raise e => Raise e
  end.
#[global] Instance res_throw : MThrow exn res := @Raise.

(** [d[k]] on the items of a dict. *)
Fixpoint dict_lookup (k : string) (items : list (string * value)) : option value :=
  match items with
  | [] => None
  | (k', v) :: items' => if String.eqb k k' then Some v else dict_lookup k items'
  end.

(** [o.get(k, d)]: only a dict has the method. *)
Definition py_get (o : value) (k : string) (d : value) : res value :=
  match o with
  | VDict items => Ok (default d (dict_lookup k items))
  | _ => Raise AttributeError
  end.

(** [bool(v)], the test of [if v] and of [v or w]. *)
Definition truthy (v : value) : bool :=
  match v with
  | VNone => false
  | VBool b => b
  | VInt z => negb (Z.eqb z 0)
  | VFloat f => match f with S754_zero _ => false | _ => true end
  | VStr s => negb (String.eqb s "")
  | VList items => match items with [] => false | _ => true end
  | VDict items => match items with [] => false | _ => true end
  | VEnum _ _ => true
  end.

(** [v is not None]. *)
Definition is_not_None (v : value) : bool :=
  match v with
  | VNone => false
  | _ => true
  end.

(** [v == s] for a string literal [s]. *)
Definition py_eq_str (v : value) (s : string) : bool :=
  match v with
  | VStr t => String.eqb t s
  | _ => false
  end.

(** [a or b]: [a] when it is truthy, else [b]. *)
Definition py_or (a b : value) : value :=
  if truthy a then a else b.

(** [for x in v]: the elements of a list, the keys of a dict, the characters
    of a string (here its bytes; the script calls [get] on what it iterates,
    which a string of any length does not have); anything else is not
    iterable. *)
Definition py_iter (v : value) : res (list value) :=
  match v with
  | VList items => Ok items
  | VDict items => Ok (map (fun kv => VStr (fst kv)) items)
  | VStr s => Ok (map (fun c => VStr (String c "")) (list_ascii_of_string s))
  | _ => Raise TypeError
  end.

(** [str.upper] on ASCII letters (other bytes are kept). *)
Definition upper_ascii (c : ascii) : ascii :=
  let n := nat_of_ascii c in
  if (97 <=? n)%nat && (n <=? 122)%nat then ascii_of_nat (n - 32) else c.

Fixpoint upper (s : string) : string :=
  match s with
  | EmptyString => EmptyString
  | String c s' => String (upper_ascii c) (upper s')
  end.

(** [v.upper()]. *)
Definition py_upper (v : value) : res value :=
  match v with
  | VStr s => Ok (VStr (upper s))
  | _ => Raise AttributeError
  end.

(** [s.split(sep)] for a separator of one character: every occurrence
    splits, empty segments are kept, and the result is never empty. *)
Fixpoint split (sep : ascii) (s : string) : list string :=
  match s with
  | EmptyString => [EmptyString]
  | String c s' =>
      if Ascii.eqb c sep then EmptyString :: split sep s'
      else match split sep s' with
           | [] => [String c EmptyString]
           | seg :: segs => String c seg :: segs
           end
  end.

(** [sep.join(segs)]. *)
Fixpoint join (sep : ascii) (segs : list string) : string :=
  match segs with
  | [] => EmptyString
  | [seg] => seg
  | seg :: segs' => seg ++ String sep (join sep segs')
  end.

(** [v.split(",")]. *)
Definition py_split_comma (v : value) : res (list value) :=
  match v with
  | VStr s => Ok (map VStr (split "," s))
  | _ => Raise AttributeError
  end.

(** [E[key]] for an enumeration class [cls] whose member names are
    [members]: the member of that name, [KeyError] for any other hashable
    key, [TypeError] for an unhashable one. *)
Definition enum_getitem (cls : string) (members : list string) (key : value) : res value :=
  match key with
  | VStr k => if bool_decide (k ∈ members) then Ok (VEnum cls k) else Raise KeyError
  | VList _ | VDict _ => Raise TypeError
  | _ => Raise KeyError
  end.

(** [[elt(x) for x in xs if cond(x)]], left to right; the first exception
    ends the evaluation. *)
Fixpoint comprehension (cond : value -> res bool) (elt : value -> res value)
    (xs : list value) : res (list value) :=
  match xs with
  | [] => Ok []
  | x :: xs' =>
      c ← cond x;
      if (c : bool) then
        y ← elt x;
        ys ← comprehension cond elt xs';
        Ok (y :: ys)
      else comprehension cond elt xs'
  end.

(** [str(n)] for an [int]. *)
Definition str_of_int (n : Z) : string :=
  NilZero.string_of_int (Z.to_int n).

(** [for x in xs: acc = body(x, acc)] in a monad: the loops of the script
    that build a list with [append]. *)
Fixpoint foldM {M : Type -> Type} `{!MBind M, !MRet M} {A S : Type}
    (body : A -> S -> M S) (xs : list A) (acc : S) : M S :=
  match xs with
  | [] => mret acc
  | x :: xs' => acc' ← body x acc; foldM body xs' acc'
  end.

(** ** The entities of [miabis_model]

    An entity is the record of the keyword arguments the script passes to
    its constructor; the field names are the keyword names of the calls. *)

Module Biobank.
Record t : Type := Build {
  identifier : value;
  name : value;
  alias : value;
  country : value;
  contact_name : value;
  contact_surname : value;
  contact_email : value;
  quality__management_standards : list value;
  description : value
}.
End Biobank.

Module Network.
Record t : Type := Build {
  identifier : value;
  name : value;
  managing_biobank_id : value;
  contact_email : value;
  country : value;
  juristic_person : value;
  members_collections_ids : list value;
  members_biobanks_ids : list value;
  contact_name : value;
  contact_surname : value;
  common_collaboration_topics : list value;
  description : value
}.
End Network.

Module Collection.
Record t : Type := Build {
  identifier : value;
  name : value;
  managing_biobank_id : value;
  contact_name : value;
  contact_surname : value;
  contact_email : value;
  country : value;
  genders : list value;
  material_types : list value;
  age_range_low : value;
  age_range_high : value;
  diagnoses : list value;
  description : value
}.
End Collection.

(** ** What the script uses of the libraries it imports *)

(** [miabis_model]: the member names of the two enumerations, for each
    constructor the exception it raises on given keyword arguments ([None]
    when the entity is constructed), and the text that
    [json.dumps(e.to_fhir(..).as_json(), indent=4)] gives for an entity. *)
Class MiabisModel : Type := {
  Gender_members : list string;
  StorageTemperature_members : list string;
  Biobank_raises : Biobank.t -> option exn;
  Network_raises : Network.t -> option exn;
  Collection_raises : Collection.t -> option exn;
  Biobank_fhir_json : Biobank.t -> res string;
  Network_fhir_json : string -> Network.t -> res string
}.

(** [json]: [json.loads] and [json.dumps]. *)
Class Json : Type := {
  json_loads : string -> res value;
  json_dumps : value -> res string
}.

(** The object [requests.post] returns: [status_code], [text], and what
    [response.json()] returns or raises. *)
Record response : Type := {
  status_code : Z;
  text : string;
  json : res value
}.

(** [blaze_client.BlazeClient(blaze_url=.., blaze_password=.., blaze_username=..)]. *)
Record BlazeClient : Type := {
  blaze_url : string;
  blaze_password : string;
  blaze_username : string
}.

(** [requests] and [blaze_client]: the outside world, as a state the calls
    read and change.  [post url query] is
    [requests.post(url, json={'query': query})]; an upload returns the
    exception it raises, if any. *)
Class Remote : Type := {
  World : Type;
  post : string -> string -> World -> World * res response;
  upload_biobank : BlazeClient -> Biobank.t -> World -> World * option exn;
  upload_network : BlazeClient -> Network.t -> World -> World * option exn;
  upload_collection : BlazeClient -> Collection.t -> World -> World * option exn
}.

(** What a run does, in order. *)
Inductive event : Type :=
| EvPost (url query : string)
| EvPrint (line : string)
| EvUploadBiobank (client : BlazeClient) (biobank : Biobank.t)
| EvUploadNetwork (client : BlazeClient) (network : Network.t)
| EvUploadCollection (client : BlazeClient) (collection : Collection.t).

(** ** The monad of the script: the world, the record of what was done,
    and exceptions *)

Section Monad.
Context {remote : Remote}.

Record state : Type := {
  world : World;
  trace : list event
}.

Definition M (A : Type) : Type := state -> state * res A.

#[global] Instance M_ret : MRet M := fun A a s => (s, Ok a).
#[global] Instance M_bind : MBind M := fun A B f m s =>
  match m s with
  | (s', Ok a) => f a s'
  | (s', Raise e) => (s', Raise e)
  end.
#[global] Instance M_throw : MThrow exn M := fun A e s => (s, Raise e).

(** A computation without effects, run inside the script. *)
Definition lift {A : Type} (r : res A) : M A := fun s => (s, r).

(** The state after [ev] has been done. *)
Definition with_event (ev : event) (s : state) : state :=
  {| world := world s; trace := (trace s ++ [ev])%list |}.

(** [print(line)]. *)
Definition print (line : string) : M unit := fun s =>
  (with_event (EvPrint line) s, Ok tt).

(** A call into the outside world: recorded, then answered by the world. *)
Definition call {A : Type} (ev : event) (f : World -> World * A) : M A := fun s =>
  let (w, a) := f (world s) in
  ({| world := w; trace := (trace s ++ [ev])%list |}, Ok a).

(** [try: body  except ValueError as e: handler(str(e))]. *)
Definition try_except_ValueError {A : Type} (body : M A) (handler : string -> M A) : M A :=
  fun s =>
    match body s with
    | (s', Raise (ValueError msg)) => handler msg s'
    | out => out
    end.

(** A call that returns nothing or raises. *)
Definition raising (m : M (option exn)) : M unit :=
  o ← m;
  match o with
  | None => mret tt
  | Some e => mthrow e
  end.

(** A call that returns a value or raises. *)
Definition returning {A : Type} (m : M (res A)) : M A :=
  r ← m; lift r.
End Monad.

(** A constructor call with keyword arguments: the entity, or the exception
    the constructor raises. *)
Definition construct {A : Type} (raises : A -> option exn) (kwargs : A) : res A :=
  match raises kwargs with
  | None => Ok kwargs
  | Some e => Raise e
  end.

(** ** The script *)

(** The three GraphQL queries, character for character. *)
Definition query : string := "
{
    Biobanks {
        id
        name
        acronym
        country {
            name
        }
        description
        url
        withdrawn
        contact {
            email
            first_name
            last_name
        }
        quality {
            quality_standard {
                name
            }
        }
    }
}
".

Definition networks_query : string := "
{
    Networks {
        id
        name
        acronym
        description
        url
        contact {
            email
            first_name
            last_name
        }
    }
}
".

Definition collections_query : string := "
{
    Collections {
        id
        name
      biobank {
        id
      }
      
        acronym
        description
        url
        contact {
            email
            first_name
            last_name
        }
      country {
        name
      }
      sex {
        name
      }
      age_low
      age_high
      storage_temperatures {
        name
      }
      diagnosis_available {
        code
      }
      number_of_donors
      url
      description
      type {
        name
      }
      access_description
    }
}
".

(** The client every upload constructs:
    [BlazeClient(blaze_url='http://localhost:8080/fhir', blaze_password='', blaze_username='')]. *)
Definition local_blaze : BlazeClient :=
  {| blaze_url := "http://localhost:8080/fhir"; blaze_password := ""; blaze_username := "" |}.

Section Script.
Context {model : MiabisModel} {codec : Json} {remote : Remote}.

(** [for x in xs: body(x)]. *)
Definition for_each {A : Type} (body : A -> M unit) (xs : list A) : M unit :=
  foldM (fun x (_ : unit) => body x) xs tt.

(** *** [populate_collection_from_json] *)

(** The list of genders (source lines 41 to 45).  The assignment expression
    [name := g.get("name")] rebinds the variable [name] of the function, so
    the comprehension is run with the current [name] and returns the last
    one with the list. *)
Definition gender_of (g : value) : res (value * value) :=
  name ← py_get g "name" VNone;
  token ← py_upper
    (if truthy (py_or (VBool (py_eq_str name "NAV")) (VStr "NASK"))
     then VStr "UNKNOWN" else name);
  gender ← enum_getitem "Gender" Gender_members token;
  mret (name, gender).

Fixpoint genders_of (sex : list value) (name : value) : res (value * list value) :=
  match sex with
  | [] => mret (name, [])
  | g :: sex' =>
      n ← py_get g "name" VNone;
      if is_not_None n then
        '(name', gender) ← gender_of g;
        '(name'', genders) ← genders_of sex' name';
        mret (name'', gender :: genders)
      else genders_of sex' name
  end.

(** One pass of the loop up to the constructor call (source lines 21 to 53):
    the keyword arguments of [Collection(..)]. *)
Definition collection_kwargs (collection_json : value) : res Collection.t :=
  identifier ← py_get collection_json "id" (VStr "");
  name ← py_get collection_json "name" (VStr "");
  description ← py_get collection_json "description" (VStr "unknown");
  contact_info ← py_get collection_json "contact" (VDict []);
  country ← (country ← py_get collection_json "country" (VDict []);
             py_get country "name" (VStr "unknown"));
  sex ← py_get collection_json "sex" (VList []);
  age_low ← py_get collection_json "age_low" VNone;
  age_high ← py_get collection_json "age_high" VNone;
  storage_temperatures ← py_get collection_json "storage_temperatures" (VList []);
  diagnoses ← py_get collection_json "diagnosis_available" (VList []);
  sample_types ← py_get collection_json "materials" (VList []);
  material_types ← (xs ← py_iter sample_types;
    comprehension
      (fun sample_type => n ← py_get sample_type "name" VNone; mret (truthy n))
      (fun sample_type =>
         n ← py_get sample_type "name" VNone;
         enum_getitem "StorageTemperature" StorageTemperature_members n)
      xs);
  managing_biobank_id ← (biobank ← py_get collection_json "biobank" (VDict []);
                         py_get biobank "id" (VStr ""));
  contact_name ← py_get contact_info "first_name" (VStr "unknown");
  contact_surname ← py_get contact_info "last_name" (VStr "unknown");
  contact_email ← py_get contact_info "email" (VStr "unknown");
  '(name, genders) ← (gs ← py_iter sex; genders_of gs name);
  diagnosis_codes ← (xs ← py_iter diagnoses;
    comprehension
      (fun diagnosis => c ← py_get diagnosis "code" VNone; mret (truthy c))
      (fun diagnosis => py_get diagnosis "code" VNone)
      xs);
  material_type_codes ←
    comprehension
      (fun material => n ← py_get material "name" VNone; mret (truthy n))
      (fun material => py_get material "name" VNone)
      material_types;
  mret {| Collection.identifier := identifier;
          Collection.name := name;
          Collection.managing_biobank_id := managing_biobank_id;
          Collection.contact_name := contact_name;
          Collection.contact_surname := contact_surname;
          Collection.contact_email := contact_email;
          Collection.country := country;
          Collection.genders := genders;
          Collection.material_types := material_type_codes;
          Collection.age_range_low := age_low;
          Collection.age_range_high := age_high;
          Collection.diagnoses := diagnosis_codes;
          Collection.description := description |}.

(** One pass of the loop: the arguments, the constructor call under
    [try]/[except ValueError] (print and [continue]), and the [append]. *)
Definition collection_pass (collection_json : value) (collections : list Collection.t)
    : M (list Collection.t) :=
  kwargs ← lift (collection_kwargs collection_json);
  made ← try_except_ValueError
    (collection ← lift (construct Collection_raises kwargs); mret (Some collection))
    (fun e => print ("Error creating Collection: " ++ e);; mret None);
  match made with
  | Some collection => mret (collections ++ [collection])%list
  | None => mret collections
  end.

Definition populate_collection_from_json (json_str : string) : M (list Collection.t) :=
  json_data ← lift (json_loads json_str);
  records ← lift (data ← py_get json_data "data" (VDict []);
                  records ← py_get data "Collections" (VList []);
                  py_iter records);
  foldM collection_pass records [].

(** *** [fetch_quality_names] *)

Definition fetch_quality_names (quality_data : value) : res (list value) :=
  items ← py_iter quality_data;
  foldM (fun item names =>
           quality_standard ← py_get item "quality_standard" (VDict []);
           name ← py_get quality_standard "name" VNone;
           mret (if truthy name then (names ++ [name])%list else names))
        items [].

(** *** [populate_network_from_json] *)

(** Source line 104:
    [network_json.get("common_network_elements", "").split(",")
     if network_json.get("common_network_elements") else []]. *)
Definition common_collaboration_topics_of (network_json : value) : res (list value) :=
  elements ← py_get network_json "common_network_elements" VNone;
  if truthy elements then
    elements ← py_get network_json "common_network_elements" (VStr "");
    py_split_comma elements
  else mret [].

Definition network_kwargs (network_json : value) : res Network.t :=
  identifier ← py_get network_json "id" (VStr "");
  name ← py_get network_json "name" (VStr "");
  description ← py_get network_json "description" (VStr "");
  juristic_person ← py_get network_json "juridical_person" (VStr "unknown");
  contact_info ← py_get network_json "contact" (VDict []);
  country ← py_get network_json "national_node" (VStr "unknown");
  common_collaboration_topics ← common_collaboration_topics_of network_json;
  contact_name ← py_get contact_info "first_name" (VStr "unknown");
  contact_surname ← py_get contact_info "last_name" (VStr "unknown");
  contact_email ← py_get contact_info "email" (VStr "unknown");
  let managing_biobank_id := VStr "bbmri-eric:ID:AT_MUG" in
  mret {| Network.identifier := identifier;
          Network.name := name;
          Network.managing_biobank_id := managing_biobank_id;
          Network.contact_email := contact_email;
          Network.country := country;
          Network.juristic_person := juristic_person;
          Network.members_collections_ids := [];
          Network.members_biobanks_ids := [];
          Network.contact_name := contact_name;
          Network.contact_surname := contact_surname;
          Network.common_collaboration_topics := common_collaboration_topics;
          Network.description := description |}.

Definition network_pass (network_json : value) (networks : list Network.t)
    : res (list Network.t) :=
  kwargs ← network_kwargs network_json;
  network ← construct Network_raises kwargs;
  mret (networks ++ [network])%list.

Definition populate_network_from_json (json_data : value) : res (list Network.t) :=
  data ← py_get json_data "data" (VDict []);
  records ← py_get data "Networks" (VList []);
  records ← py_iter records;
  foldM network_pass records [].

(** *** [populate_biobank_from_json] *)

Definition biobank_kwargs (biobank_json : value) : res Biobank.t :=
  identifier ← py_get biobank_json "id" (VStr "");
  name ← py_get biobank_json "name" (VStr "");
  alias ← py_get biobank_json "acronym" (VStr "unknown");
  country ← (country ← py_get biobank_json "country" (VDict []);
             py_get country "name" (VStr ""));
  description ← py_get biobank_json "description" (VStr "");
  contact_info ← py_get biobank_json "contact" (VDict []);
  contact_name ← py_get contact_info "first_name" (VStr "unknown");
  contact_surname ← py_get contact_info "last_name" (VStr "unknown");
  contact_email ← py_get contact_info "email" (VStr "unknown");
  quality_management_standards ←
    (quality ← py_get biobank_json "quality" (VList []);
     fetch_quality_names quality);
  mret {| Biobank.identifier := identifier;
          Biobank.name := name;
          Biobank.alias := alias;
          Biobank.country := country;
          Biobank.contact_name := contact_name;
          Biobank.contact_surname := contact_surname;
          Biobank.contact_email := contact_email;
          Biobank.quality__management_standards := quality_management_standards;
          Biobank.description := description |}.

Definition biobank_pass (biobank_json : value) (biobanks : list Biobank.t)
    : res (list Biobank.t) :=
  kwargs ← biobank_kwargs biobank_json;
  biobank ← construct Biobank_raises kwargs;
  mret (biobanks ++ [biobank])%list.

Definition populate_biobank_from_json (json_data : value) : res (list Biobank.t) :=
  data ← py_get json_data "data" (VDict []);
  records ← py_get data "Biobanks" (VList []);
  records ← py_iter records;
  foldM biobank_pass records [].

(** *** The entry points *)

(** The line printed when the status is not 200. *)
Definition failed_to_fetch (r : response) : string :=
  "Failed to fetch data: " ++ str_of_int (status_code r) ++ " - " ++ text r.

(** [requests.post(url, json={'query': q})]. *)
Definition requests_post (url q : string) : M response :=
  returning (call (EvPost url q) (post url q)).

Definition sync_biobanks : M unit :=
  response ← requests_post "https://directory.bbmri-eric.eu/ERIC/directory/graphql" query;
  if (status_code response =? 200)%Z then
    json_data ← lift (json response);
    biobanks ← lift (populate_biobank_from_json json_data);
    for_each (fun biobank =>
                line ← lift (Biobank_fhir_json biobank);
                print line;;
                raising (call (EvUploadBiobank local_blaze biobank)
                              (upload_biobank local_blaze biobank)))
             biobanks
  else print (failed_to_fetch response).

Definition sync_networks : M unit :=
  response ← requests_post "https://directory.bbmri-eric.eu/ERIC/directory/graphql" networks_query;
  if (status_code response =? 200)%Z then
    json_data ← lift (json response);
    networks ← lift (populate_network_from_json json_data);
    for_each (fun network =>
                line ← lift (Network_fhir_json "DFFW3QMQC7KOYRHJ" network);
                print line;;
                raising (call (EvUploadNetwork local_blaze network)
                              (upload_network local_blaze network)))
             networks
  else print (failed_to_fetch response).

Definition sync_collections : M unit :=
  response ← requests_post "https://directory-emx2-acc.molgenis.net/ERIC/directory/graphql" collections_query;
  if (status_code response =? 200)%Z then
    json_data ← lift (json response);
    json_str ← lift (json_dumps json_data);
    collections ← populate_collection_from_json json_str;
    for_each (fun collection =>
                raising (call (EvUploadCollection local_blaze collection)
                              (upload_collection local_blaze collection)))
             collections
  else print (failed_to_fetch response).

(** The module calls [sync_collections()] when it is run (source line 361). *)
Definition main : M unit := sync_collections.

End Script.

(** ** The Field Extractor as the specification words it

    Section 4.1: the value at a path of nested keys, or the default when a
    key along the path is missing or the node there is not a mapping. *)
Fixpoint spec_extract (node : value) (path : list string) (d : value) : value :=
  match path with
  | [] => node
  | k :: path' =>
      match node with
      | VDict items =>
          match dict_lookup k items with
          | Some v => spec_extract v path' d
          | None => d
          end
      | _ => d
      end
  end.

(** ** Predicates of the statements *)

Definition is_dict (v : value) : bool :=
  match v with
  | VDict _ => true
  | _ => false
  end.

(** A member of an enumeration. *)
Definition is_enum (v : value) : bool :=
  match v with
  | VEnum _ _ => true
  | _ => false
  end.

(** The key is absent, or bound to a mapping. *)
Definition mapping_or_absent (items : list (string * value)) (k : string) : bool :=
  match dict_lookup k items with
  | None | Some (VDict _) => true
  | Some _ => false
  end.

(** The key is absent, or bound to the empty list. *)
Definition empty_or_absent (items : list (string * value)) (k : string) : bool :=
  match dict_lookup k items with
  | None | Some (VList []) => true
  | Some _ => false
  end.

(** An entry of a [sex] list whose [name] is present and not null. *)
Definition has_name (g : value) : bool :=
  match g with
  | VDict items => is_not_None (default VNone (dict_lookup "name" items))
  | _ => false
  end.

(** An entry of a list whose [name] is truthy. *)
Definition has_truthy_name (x : value) : bool :=
  match x with
  | VDict items => truthy (default VNone (dict_lookup "name" items))
  | _ => false
  end.

(** The records of a payload: [json_data.get("data", {}).get(kind, [])],
    iterated. *)
Definition records_of (kind : string) (json_data : value) : res (list value) :=
  data ← py_get json_data "data" (VDict []);
  records ← py_get data kind (VList []);
  py_iter records.

(** The entities a run has uploaded, in the order of the uploads. *)
Definition uploaded_biobanks (tr : list event) : list Biobank.t :=
  omap (fun ev => match ev with EvUploadBiobank _ b => Some b | _ => None end) tr.

Definition uploaded_networks (tr : list event) : list Network.t :=
  omap (fun ev => match ev with EvUploadNetwork _ n => Some n | _ => None end) tr.

Definition uploaded_collections (tr : list event) : list Collection.t :=
  omap (fun ev => match ev with EvUploadCollection _ c => Some c | _ => None end) tr.

(** The number of commas of a string. *)
Fixpoint commas (s : string) : nat :=
  match s with
  | EmptyString => 0
  | String c s' => (if Ascii.eqb c "," then 1 else 0) + commas s'
  end.

(** One pass of the loop of [populate_collection_from_json] without the
    state: the collection that is appended, the message of the [ValueError]
    that is printed, or the exception that leaves the loop. *)
Definition collection_result {model : MiabisModel} (collection_json : value)
    : res (Collection.t + string) :=
  kwargs ← collection_kwargs collection_json;
  match Collection_raises kwargs with
  | None => Ok (inl kwargs)
  | Some (ValueError msg) => Ok (inr msg)
  | Some e => Raise e
  end.

(** The collection a pass appends, if it appends one. *)
Definition appended {model : MiabisModel} (collection_json : value) : option Collection.t :=
  match collection_result collection_json with
  | Ok (inl collection) => Some collection
  | _ => None
  end.

(** The line a pass prints, if it prints one. *)
Definition printed {model : MiabisModel} (collection_json : value) : option event :=
  match collection_result collection_json with
  | Ok (inr msg) => Some (EvPrint ("Error creating Collection: " ++ msg))
  | _ => None
  end.

(** The entity a pass of the other two loops appends: the keyword arguments,
    when the constructor takes them. *)
Definition constructed {A : Type} (kwargs_of : value -> res A) (raises : A -> option exn)
    (record_json : value) : res A :=
  kwargs ← kwargs_of record_json;
  construct raises kwargs.

(** The same, as an option. *)
Definition made {A : Type} (kwargs_of : value -> res A) (raises : A -> option exn)
    (record_json : value) : option A :=
  match constructed kwargs_of raises record_json with
  | Ok entity => Some entity
  | Raise _ => None
  end.

(** [entities] come from records of [records], one each, in the order in
    which these records stand in [records]. *)
Definition in_source_order {A : Type} (made_from : value -> option A)
    (records : list value) (entities : list A) : Prop :=
  exists kept : list value,
    kept `sublist_of` records
    /\ Forall2 (fun r e => made_from r = Some e) kept entities.

(** What a run from [s] leaves when the answer [r] to its request has a
    status other than 200 and the request has left the world as [w']: the
    request and one printed line with the status and the body, and a normal
    return. *)
Definition reported {remote : Remote} (s : state) (r : response) (w' : World)
    (url q : string) : state * res unit :=
  ({| world := w';
      trace := (trace s ++ [EvPost url q;
                            EvPrint ("Failed to fetch data: " ++ str_of_int (status_code r)
                                     ++ " - " ++ text r)])%list |},
   Ok tt).

(** ** Sample environments, for closed instances of the statements *)

(** A modelling library whose constructors decide on the identifier alone. *)
Definition model_deciding (raises : value -> option exn) : MiabisModel := {|
  Gender_members := ["MALE"; "FEMALE"; "OTHER"; "UNKNOWN"];
  StorageTemperature_members := ["TEMPERATURE_ROOM"; "TEMPERATURE_LN"; "TEMPERATURE_OTHER"];
  Biobank_raises b := raises (Biobank.identifier b);
  Network_raises n := raises (Network.identifier n);
  Collection_raises c := raises (Collection.identifier c);
  Biobank_fhir_json _ := Ok "{}";
  Network_fhir_json _ _ := Ok "{}"
|}.

(** Every construction succeeds. *)
Definition accepting : MiabisModel := model_deciding (fun _ => None).

(** An empty (falsy) identifier is a [ValueError]. *)
Definition requiring_identifier : MiabisModel :=
  model_deciding (fun identifier =>
    if truthy identifier then None else Some (ValueError "identifier is empty")).

(** A codec for one document: every text decodes to [v]. *)
Definition decoding_to (v : value) : Json := {|
  json_loads _ := Ok v;
  json_dumps _ := Ok ""
|}.

(** A world without state that answers every request with [r] and stores
    every upload. *)
Definition answering (r : response) : Remote := {|
  World := unit;
  post _ _ w := (w, Ok r);
  upload_biobank _ _ w := (w, None);
  upload_network _ _ w := (w, None);
  upload_collection _ _ w := (w, None)
|}.

(** The start of a run in that world. *)
Definition start (r : response) : @state (answering r) :=
  @Build_state (answering r) tt [].

(** Records of the three kinds, with one of each kind that has no [id], and
    the payloads that hold them. *)
Definition biobank_records : list value :=
  [VDict [("name", VStr "Biobank without identifier")];
   VDict [("id", VStr "bbmri-eric:ID:CZ_MMCI"); ("name", VStr "MMCI");
          ("country", VDict [("name", VStr "CZ")]);
          ("quality", VList [VDict [("quality_standard",
                                     VDict [("name", VStr "ISO 9001")])]])]].

Definition network_records : list value :=
  [VDict [("name", VStr "Network without identifier")];
   VDict [("id", VStr "bbmri-eric:networkID:EU_BBMRI-ERIC:networks:COVID19");
          ("name", VStr "COVID19");
          ("common_network_elements", VStr "a, b,,c")]].

Definition collection_records : list value :=
  [VDict [("id", VStr "bbmri-eric:ID:CZ_MMCI:collection:LTS"); ("name", VStr "LTS");
          ("biobank", VDict [("id", VStr "bbmri-eric:ID:CZ_MMCI")]);
          ("sex", VList [VDict [("name", VStr "NAV")]; VDict [("name", VStr "FEMALE")]]);
          ("age_low", VInt 0)];
   VDict [("name", VStr "Collection without identifier")];
   VDict [("id", VStr "bbmri-eric:ID:AT_MUG:collection:C3"); ("age_high", VInt 90)]].

Definition biobanks_payload : value :=
  VDict [("data", VDict [("Biobanks", VList biobank_records)])].

Definition networks_payload : value :=
  VDict [("data", VDict [("Networks", VList network_records)])].

Definition collections_payload : value :=
  VDict [("data", VDict [("Collections", VList collection_records)])].

(** The record of the example scenario of the specification. *)
Definition scenario_record : value :=
  VDict [("sex", VList [VDict [("name", VStr "NAV")]; VDict [("name", VStr "FEMALE")]]);
         ("age_low", VInt 0);
         ("materials", VList [VDict [("name", VStr "PLASMA")]])].

Definition scenario_payload : value :=
  VDict [("data", VDict [("Collections", VList [scenario_record])])].

(** A payload whose first record has a material that no enumeration knows. *)
Definition unmappable_payload : value :=
  VDict [("data", VDict [("Collections", VList [
    VDict [("id", VStr "bbmri-eric:ID:CZ_MMCI:collection:LTS");
           ("materials", VList [VDict [("name", VStr "NOT_A_MATERIAL")]])];
    VDict [("id", VStr "bbmri-eric:ID:AT_MUG:collection:C3")]])])].

(** An answer with status 503, whose body is not a JSON document. *)
Definition unavailable : response :=
  {| status_code := 503; text := "Service Unavailable";
     json := Raise (ValueError "Expecting value") |}.

(** A response with status 200 and the given document. *)
Definition ok_response (json_data : value) : response :=
  {| status_code := 200; text := ""; json := Ok json_data |}.

(** ** [fetch_organization_fhir_id] *)

(** [v[k]] for a string [k]: the value of a dict at a key it has,
    [KeyError] at a key it has not; nothing else can be indexed by a
    string. *)
Definition py_getitem (v : value) (k : string) : res value :=
  match v with
  | VDict items =>
      match dict_lookup k items with
      | Some x => Ok x
      | None => Raise KeyError
      end
  | _ => Raise TypeError
  end.

(** [v[0]]: the first element of a list, the first character of a string
    (here its first byte), [IndexError] when they are empty; a dict of a
    JSON document has no key [0]; nothing else can be indexed. *)
Definition py_getitem_0 (v : value) : res value :=
  match v with
  | VList (x :: _) => Ok x
  | VStr (String c _) => Ok (VStr (String c EmptyString))
  | VList [] | VStr EmptyString => Raise (OtherError "IndexError")
  | VDict _ => Raise KeyError
  | _ => Raise TypeError
  end.

(** [v > 0]: defined for numbers only. *)
Definition py_gt_0 (v : value) : res bool :=
  match v with
  | VBool b => Ok b
  | VInt z => Ok (0 <? z)%Z
  | VFloat f => Ok (SFltb (S754_zero false) f)
  | _ => Raise TypeError
  end.

(** What the function uses of [requests] beyond [Remote]:
    [search url identifier] is [requests.get(url, params={"identifier":
    identifier})]; [HTTPError r] is the exception [r.raise_for_status()]
    raises when the status of [r] is 400 to 599; [RequestException e] says
    whether the class of [e] derives from
    [requests.exceptions.RequestException]; [message e] is [str(e)] for an
    exception that does not carry it. *)
Class Requests {remote : Remote} : Type := {
  search : string -> string -> World -> World * res response;
  HTTPError : response -> exn;
  RequestException : exn -> bool;
  message : exn -> string
}.

Section Organization.
Context {remote : Remote} {requests : Requests}.

(** [response.raise_for_status()]. *)
Definition raise_for_status (r : response) : res unit :=
  if ((400 <=? status_code r) && (status_code r <? 600))%Z
  then Raise (HTTPError r)
  else Ok tt.

(** What [except requests.exceptions.RequestException] catches: none of
    the built-in [KeyError], [AttributeError], [TypeError]. *)
Definition caught (e : exn) : bool :=
  match e with
  | KeyError | AttributeError | TypeError => false
  | _ => RequestException e
  end.

(** [str(e)]. *)
Definition exn_str (e : exn) : string :=
  match e with
  | ValueError msg => msg
  | _ => message e
  end.

(** [try: body  except requests.exceptions.RequestException as e: handler(e)]. *)
Definition try_except_RequestException {A : Type} (body : M A) (handler : exn -> M A)
    : M A :=
  fun s =>
    match body s with
    | (s', Raise e) => if caught e then handler e s' else (s', Raise e)
    | out => out
    end.

(** The request is answered by the world; the runs of the entry points
    never make it, and the record of what was done has no event for it. *)
Definition requests_get (url identifier : string) : M response :=
  fun s =>
    let (w, r) := search url identifier (world s) in
    ({| world := w; trace := trace s |}, r).

Definition fetch_organization_fhir_id (fhir_server_url identifier : string) : M value :=
  let search_url := fhir_server_url ++ "/Organization" in
  try_except_RequestException
    (response ← requests_get search_url identifier;
     lift (raise_for_status response);;
     search_result ← lift (json response);
     total ← lift (py_get search_result "total" (VInt 0));
     found ← lift (py_gt_0 total);
     if (found : bool) then
       lift (entry ← py_getitem search_result "entry";
             first ← py_getitem_0 entry;
             resource ← py_getitem first "resource";
             py_getitem resource "id")
     else
       print ("No organization found with identifier: " ++ identifier);;
       mret VNone)
    (fun e =>
       print ("Failed to fetch organization: " ++ exn_str e);;
       mret VNone).

End Organization.

(** ** Further predicates of the statements *)

(** The requests a run has made. *)
Definition posted (tr : list event) : list (string * string) :=
  omap (fun ev => match ev with EvPost url q => Some (url, q) | _ => None end) tr.

(** The name an entry of a [quality] list contributes:
    [item.get("quality_standard", {}).get("name")]. *)
Definition quality_name (item : value) : value :=
  spec_extract item ["quality_standard"; "name"] VNone.

(** An entry of a [quality] list on which neither [get] raises: a mapping
    whose [quality_standard] is absent or a mapping. *)
Definition quality_item_ok (item : value) : bool :=
  match item with
  | VDict items => mapping_or_absent items "quality_standard"
  | _ => false
  end.

(** The value of a mapping at a key, [None] when the key is absent or the
    node is no mapping. *)
Definition at_key (k : string) (node : value) : value :=
  spec_extract node [k] VNone.

(** An exception that [except ValueError] does not catch. *)
Definition not_ValueError (e : exn) : bool :=
  match e with
  | ValueError _ => false
  | _ => true
  end.

(** A server that answers every search with [r]; the exceptions of
    [requests] are those of a class named [requests.exceptions...]. *)
Definition searching (r0 r : response) : @Requests (answering r0) := {|
  search _ _ w := (w, Ok r);
  HTTPError _ := OtherError "requests.exceptions.HTTPError";
  RequestException e :=
    match e with
    | OtherError cls => String.prefix "requests.exceptions." cls
    | _ => false
    end;
  message _ := "404 Client Error: Not Found"
|}.

(** The search result for one organization, and the result for none. *)
Definition one_organization : value :=
  VDict [("resourceType", VStr "Bundle"); ("total", VInt 1);
         ("entry", VList [VDict [("resource",
            VDict [("resourceType", VStr "Organization");
                   ("id", VStr "DFFW3QMQC7KOYRHJ")])]])].

Definition no_organization : value :=
  VDict [("resourceType", VStr "Bundle"); ("total", VInt 0)].

(** A world as [answering], but whose uploads of collections all raise. *)
Definition refusing_uploads (r : response) : Remote := {|
  World := unit;
  post _ _ w := (w, Ok r);
  upload_biobank _ _ w := (w, None);
  upload_network _ _ w := (w, None);
  upload_collection _ _ w := (w, Some (OtherError "requests.exceptions.ConnectionError"))
|}.

(** A collection record with two genders, a material without a name, a
    material with an empty name, and three diagnoses of which one has no
    code. *)
Definition sample_sex : list value :=
  [VDict [("name", VStr "NAV")]; VDict []; VDict [("name", VStr "FEMALE")];
   VDict [("name", VNone)]].

Definition sample_diagnoses : list value :=
  [VDict [("code", VStr "urn:miriam:icd:C18")]; VDict [("label", VStr "no code")];
   VDict [("code", VStr "urn:miriam:icd:C20")]].

Definition sample_collection : list (string * value) :=
  [("id", VStr "bbmri-eric:ID:CZ_MMCI:collection:LTS"); ("name", VStr "LTS");
   ("sex", VList sample_sex);
   ("materials", VList [VDict []; VDict [("name", VStr "")]]);
   ("diagnosis_available", VList sample_diagnoses)].

(** The start of a run in the world [refusing_uploads r]. *)
Definition start_refusing (r : response) : @state (refusing_uploads r) :=
  @Build_state (refusing_uploads r) tt [].

(** The document of an answer that reports errors: [data] is [null]. *)
Definition errors_document : list (string * value) :=
  [("errors", VList [VDict [("message", VStr "Field 'materials' is undefined")]]);
   ("data", VNone)].

(** An answer with status 404. *)
Definition not_found : response :=
  {| status_code := 404; text := "Not Found"; json := Ok (VDict []) |}.

(** * Properties *)

#[local] Open Scope list_scope.

(** ** Splitting and joining *)

Lemma split_not_nil (sep : ascii) (s : string) : split sep s <> [].
Proof.
  destruct s as [|c s]; simpl; [discriminate|].
  destruct (Ascii.eqb c sep); [discriminate|].
  destruct (split sep s); discriminate.
Qed.

Lemma join_cons (sep : ascii) (seg : string) (segs : list string) :
  segs <> [] -> join sep (seg :: segs) = (seg ++ String sep (join sep segs))%string.
Proof. destruct segs; [congruence | reflexivity]. Qed.

Lemma join_split (sep : ascii) (s : string) : join sep (split sep s) = s.
Proof.
  induction s as [|c s IH]; [reflexivity|].
  cbn [split]. destruct (Ascii.eqb_spec c sep) as [->|Hne].
  - rewrite join_cons by apply split_not_nil. now rewrite IH.
  - pose proof (split_not_nil sep s) as Hnil.
    destruct (split sep s) as [|seg segs]; [congruence|].
    destruct segs as [|seg' segs].
    + simpl in *. now rewrite IH.
    + change (join sep (String c seg :: seg' :: segs))
        with (String c (join sep (seg :: seg' :: segs))).
      now rewrite IH.
Qed.

Lemma length_split_comma (s : string) : length (split "," s) = S (commas s).
Proof.
  induction s as [|c s IH]; [reflexivity|].
  cbn [split commas]. destruct (Ascii.eqb c ","); simpl.
  - now rewrite IH.
  - destruct (split "," s); simpl in *; [discriminate | assumption].
Qed.

Lemma split_comma_segments (s : string) :
  Forall (fun seg => commas seg = 0) (split "," s).
Proof.
  induction s as [|c s IH]; [repeat constructor|].
  cbn [split]. destruct (Ascii.eqb c ",") eqn:Hc.
  - constructor; [reflexivity | assumption].
  - destruct (split "," s) as [|seg segs]; [repeat constructor; simpl; now rewrite Hc|].
    inversion IH; subst. constructor; [|assumption].
    simpl. now rewrite Hc.
Qed.

(** ** The topics of a network *)

(** C10.  For a network record whose [common_network_elements] is a
    non-empty string [s], the topics are the segments of [s] between its
    commas: nothing is trimmed, empty segments are kept (there is one more
    segment than there are commas, and no segment holds a comma), and
    joining the segments with commas gives [s] back.  When the field is
    absent or falsy the list is empty.  The list is the one the network is
    constructed with. *)
Theorem C10_topics_split_on_commas (items : list (string * value)) :
  (forall s : string,
      dict_lookup "common_network_elements" items = Some (VStr s) ->
      s <> "" ->
      common_collaboration_topics_of (VDict items) = Ok (map VStr (split "," s))
      /\ join "," (split "," s) = s
      /\ length (split "," s) = S (commas s)
      /\ Forall (fun seg => commas seg = 0) (split "," s))
  /\ (truthy (default VNone (dict_lookup "common_network_elements" items)) = false ->
      common_collaboration_topics_of (VDict items) = Ok [])
  /\ (forall n : Network.t,
      network_kwargs (VDict items) = Ok n ->
      common_collaboration_topics_of (VDict items)
      = Ok (Network.common_collaboration_topics n)).
Proof.
  split; [|split].
  - intros s Hs Hne.
    split; [|split; [apply join_split | split;
      [apply length_split_comma | apply split_comma_segments]]].
    unfold common_collaboration_topics_of, py_get. simpl. rewrite Hs. simpl.
    destruct s; [congruence | reflexivity].
  - intros Hf. unfold common_collaboration_topics_of, py_get. simpl.
    now rewrite Hf.
  - intros n Hn. unfold network_kwargs in Hn. simpl in Hn.
    destruct (common_collaboration_topics_of (VDict items)) as [topics|e];
      simpl in Hn; [|discriminate].
    destruct (default (VDict []) (dict_lookup "contact" items)); simpl in Hn;
      try discriminate.
    now injection Hn as <-.
Qed.

(** An instance: spaces and an empty segment are kept. *)
Lemma C10_witness :
  common_collaboration_topics_of
    (VDict [("id", VStr "n1"); ("common_network_elements", VStr "a, b,,c")])
  = Ok [VStr "a"; VStr " b"; VStr ""; VStr "c"]
  /\ join "," ["a"; " b"; ""; "c"] = "a, b,,c".
Proof.
  pose proof (proj1 (C10_topics_split_on_commas
    [("id", VStr "n1"); ("common_network_elements", VStr "a, b,,c")]) "a, b,,c") as H.
  destruct H as (H1 & H2 & _); [reflexivity | discriminate |].
  split; [exact H1 | exact H2].
Defined.

(** ** Tactics for computations that return or raise *)

(** Case analysis on the computations bound in a hypothesis [H] that says
    the whole returned. *)
Ltac bind_inv H :=
  repeat match type of H with
    | mbind _ ?m = Ok _ =>
        let E := fresh "E" in
        destruct m eqn:E; simpl in H; [|discriminate H]
    | (match ?m with Ok _ => _ | Raise _ => _ end) = Ok _ =>
        let E := fresh "E" in
        destruct m eqn:E; simpl in H; [|discriminate H]
    | (match ?p with (_, _) => _ end) = Ok _ =>
        is_var p; destruct p; simpl in H
    end.

Lemma py_get_dict (items : list (string * value)) (k : string) (d : value) :
  py_get (VDict items) k d = Ok (spec_extract (VDict items) [k] d).
Proof. simpl. now destruct (dict_lookup k items). Qed.

(** ** The genders of a collection *)

Section Genders.
Context {model : MiabisModel}.

Lemma NAV_or_NASK_truthy (name : value) :
  truthy (py_or (VBool (py_eq_str name "NAV")) (VStr "NASK")) = true.
Proof. unfold py_or. simpl. now destruct (py_eq_str name "NAV"). Qed.

Lemma gender_of_dict_eq (items : list (string * value)) :
  gender_of (VDict items)
  = (gender ← enum_getitem "Gender" Gender_members (VStr "UNKNOWN");
     mret (default VNone (dict_lookup "name" items), gender)).
Proof. unfold gender_of. simpl. now rewrite NAV_or_NASK_truthy. Qed.

Lemma gender_of_dict (items : list (string * value)) :
  "UNKNOWN" ∈ Gender_members ->
  gender_of (VDict items)
  = Ok (default VNone (dict_lookup "name" items), VEnum "Gender" "UNKNOWN").
Proof.
  intros Hin. rewrite gender_of_dict_eq. simpl. now rewrite bool_decide_eq_true_2.
Qed.

Lemma gender_of_Ok (g name gender : value) :
  gender_of g = Ok (name, gender) -> gender = VEnum "Gender" "UNKNOWN".
Proof.
  unfold gender_of. intros H.
  destruct (py_get g "name" VNone) as [n|] eqn:E; simpl in H; [|discriminate].
  rewrite NAV_or_NASK_truthy in H. simpl in H.
  destruct (bool_decide _); simpl in H; [|discriminate].
  now injection H as _ <-.
Qed.

Lemma genders_of_dicts (sex : list value) (name : value) :
  "UNKNOWN" ∈ Gender_members ->
  Forall (fun g => is_dict g = true) sex ->
  exists name',
    genders_of sex name
    = Ok (name', map (fun _ => VEnum "Gender" "UNKNOWN") (List.filter has_name sex)).
Proof.
  intros Hin Hsex. revert name.
  induction Hsex as [|g sex Hg _ IH]; intros name; [simpl; eauto|].
  destruct g as [| | | | | |items|]; try discriminate.
  cbn [genders_of List.filter has_name]. simpl py_get. simpl mbind at 1.
  destruct (is_not_None (default VNone (dict_lookup "name" items))).
  - rewrite gender_of_dict by assumption. simpl mbind at 1.
    destruct (IH (default VNone (dict_lookup "name" items))) as [name' ->].
    simpl. eauto.
  - apply IH.
Qed.

Lemma genders_of_Ok (sex : list value) (name name' : value) (genders : list value) :
  genders_of sex name = Ok (name', genders) ->
  Forall (fun gender => gender = VEnum "Gender" "UNKNOWN") genders.
Proof.
  revert name name' genders.
  induction sex as [|g sex IH]; intros name name' genders H; simpl in H.
  - injection H as _ <-. constructor.
  - destruct (py_get g "name" VNone) as [n|]; simpl in H; [|discriminate].
    destruct (is_not_None n).
    + destruct (gender_of g) as [[n1 gender]|] eqn:Eg; simpl in H; [|discriminate].
      destruct (genders_of sex n1) as [[n2 rest]|] eqn:Er; simpl in H; [|discriminate].
      injection H as _ <-. constructor; [eapply gender_of_Ok|eapply IH]; eassumption.
    + eapply IH; eassumption.
Qed.

Lemma collection_kwargs_genders (collection_json : value) (c : Collection.t) :
  collection_kwargs collection_json = Ok c ->
  Forall (fun gender => gender = VEnum "Gender" "UNKNOWN") (Collection.genders c).
Proof.
  unfold collection_kwargs. intros H.
  destruct collection_json; try discriminate. simpl in H.
  bind_inv H. injection H as <-. simpl.
  match goal with
  | E : mbind _ (py_iter ?v) = Ok (_, ?l) |- Forall _ ?l =>
      destruct (py_iter v); simpl in E; [|discriminate E];
      eapply genders_of_Ok; exact E
  end.
Qed.

Lemma genders_of_exact (sex : list value) (name name' : value) (genders : list value) :
  genders_of sex name = Ok (name', genders) ->
  genders = map (fun _ => VEnum "Gender" "UNKNOWN") (List.filter has_name sex).
Proof.
  revert name name' genders.
  induction sex as [|g sex IH]; intros name name' genders H; simpl in H.
  - now injection H as _ <-.
  - destruct g as [| | | | | |items|]; try discriminate.
    cbn [py_get mbind res_bind] in H. cbn [List.filter has_name].
    destruct (is_not_None (default VNone (dict_lookup "name" items))).
    + destruct (gender_of (VDict items)) as [[n1 gender]|] eqn:Eg; simpl in H;
        [|discriminate].
      destruct (genders_of sex n1) as [[n2 rest]|] eqn:Er; simpl in H; [|discriminate].
      injection H as _ <-. cbn [map]. f_equal.
      * eapply gender_of_Ok; eassumption.
      * eapply IH; eassumption.
    + eapply IH; eassumption.
Qed.

Lemma collection_kwargs_genders_exact (items : list (string * value)) (c : Collection.t)
    (sex : list value) :
  collection_kwargs (VDict items) = Ok c ->
  py_iter (default (VList []) (dict_lookup "sex" items)) = Ok sex ->
  Collection.genders c
  = map (fun _ => VEnum "Gender" "UNKNOWN") (List.filter has_name sex).
Proof.
  unfold collection_kwargs. intros H Hsex.
  simpl in H. rewrite Hsex in H. simpl in H.
  bind_inv H.
  match goal with
  | E : genders_of _ _ = Ok _ |- _ => apply genders_of_exact in E
  end.
  injection H as <-. simpl. assumption.
Qed.

End Genders.

(** C1.  Whatever token a [sex] entry carries, the gender mapping resolves
    it to the member [UNKNOWN] of [Gender]: the test
    [(name := g.get("name")) == "NAV" or "NASK"] is truthy for every token.
    This holds entry by entry, and for the whole list.  For every record the
    builder constructs a collection from, the genders of the collection are
    one [UNKNOWN] for each entry of the [sex] list of the record whose name
    is present and not null, in the order of the list, and nothing for the
    other entries. *)
Theorem C1_gender_tokens_resolve_to_UNKNOWN {model : MiabisModel} :
  "UNKNOWN" ∈ Gender_members ->
  (forall (items : list (string * value)) (token : value),
      dict_lookup "name" items = Some token ->
      token <> VNone ->
      gender_of (VDict items) = Ok (token, VEnum "Gender" "UNKNOWN"))
  /\ (forall (sex : list value) (name : value),
      Forall (fun g => is_dict g = true) sex ->
      exists name',
        genders_of sex name
        = Ok (name', map (fun _ => VEnum "Gender" "UNKNOWN") (List.filter has_name sex)))
  /\ (forall (collection_json : value) (c : Collection.t),
      collection_kwargs collection_json = Ok c ->
      Forall (fun gender => gender = VEnum "Gender" "UNKNOWN") (Collection.genders c))
  /\ (forall (items : list (string * value)) (c : Collection.t) (sex : list value),
      collection_kwargs (VDict items) = Ok c ->
      py_iter (default (VList []) (dict_lookup "sex" items)) = Ok sex ->
      Collection.genders c
      = map (fun _ => VEnum "Gender" "UNKNOWN") (List.filter has_name sex)
      /\ length (Collection.genders c) = length (List.filter has_name sex)).
Proof.
  intros Hin. split; [|split; [|split]].
  - intros items token Htoken _. rewrite gender_of_dict by assumption.
    now rewrite Htoken.
  - intros sex name Hsex. now apply genders_of_dicts.
  - apply collection_kwargs_genders.
  - intros items c sex Hc Hsex.
    rewrite (collection_kwargs_genders_exact items c sex Hc Hsex).
    split; [reflexivity | apply length_map].
Qed.

(** An instance: the token [FEMALE] gives [UNKNOWN], and the collection of
    [sample_collection], whose [sex] list has four entries of which two have
    a name, has two genders, both [UNKNOWN]. *)
Lemma C1_witness :
  gender_of (model := accepting) (VDict [("name", VStr "FEMALE")])
  = Ok (VStr "FEMALE", VEnum "Gender" "UNKNOWN")
  /\ exists c,
      collection_kwargs (model := accepting) (VDict sample_collection) = Ok c
      /\ Collection.genders c = [VEnum "Gender" "UNKNOWN"; VEnum "Gender" "UNKNOWN"].
Proof.
  assert ("UNKNOWN" ∈ Gender_members (MiabisModel := accepting)) as Hin
    by (apply (bool_decide_unpack _); vm_compute; exact I).
  destruct (C1_gender_tokens_resolve_to_UNKNOWN (model := accepting) Hin)
    as (Hentry & _ & _ & Hrecord).
  split.
  - apply (Hentry [("name", VStr "FEMALE")] (VStr "FEMALE")); [reflexivity | discriminate].
  - eexists. split; [vm_compute; reflexivity|].
    etransitivity.
    + apply (Hrecord sample_collection _ sample_sex); [vm_compute; reflexivity | reflexivity].
    + reflexivity.
Defined.

(** ** Lists kept in order *)

Lemma omap_in_source_order {A : Type} (f : value -> option A) (records : list value) :
  in_source_order f records (omap f records).
Proof.
  induction records as [|r records (kept & Hsub & Hall)].
  - exists []. split; constructor.
  - simpl. destruct (f r) as [e|] eqn:Hr.
    + exists (r :: kept). split; [now constructor | now constructor].
    + exists kept. split; [now constructor | assumption].
Qed.

Lemma in_source_order_prefix {A : Type} (f : value -> option A)
    (records : list value) (entities published : list A) :
  in_source_order f records entities ->
  published `prefix_of` entities ->
  in_source_order f records published.
Proof.
  intros (kept & Hsub & Hall) [rest ->].
  apply Forall2_app_inv_r in Hall as (kept1 & kept2 & H1 & _ & ->).
  exists kept1. split; [|assumption].
  etransitivity; [|exact Hsub]. now apply sublist_inserts_r.
Qed.

(** ** The loops of the builders that do not catch *)

Lemma constructed_Ok {A : Type} (kwargs_of : value -> res A) (raises : A -> option exn)
    (r : value) (e : A) :
  constructed kwargs_of raises r = Ok e <-> kwargs_of r = Ok e /\ raises e = None.
Proof.
  unfold constructed, construct. split.
  - intros H. destruct (kwargs_of r) as [k|]; simpl in H; [|discriminate].
    destruct (raises k) eqn:Hk; [discriminate|]. now injection H as <-.
  - intros [-> Hk]. simpl. now rewrite Hk.
Qed.

Section Loop.
Context {A : Type} (kwargs_of : value -> res A) (raises : A -> option exn).
Variable pass : value -> list A -> res (list A).
Hypothesis pass_eq : forall r acc,
  pass r acc = match constructed kwargs_of raises r with
               | Ok e => Ok (acc ++ [e])
               | Raise x => Raise x
               end.

Lemma foldM_pass_Ok (records : list value) (acc out : list A) :
  foldM pass records acc = Ok out <->
  exists entities,
    Forall2 (fun r e => constructed kwargs_of raises r = Ok e) records entities
    /\ out = acc ++ entities.
Proof.
  revert acc out. induction records as [|r records IH]; intros acc out; simpl.
  - split.
    + intros [= <-]. exists []. split; [constructor | now rewrite app_nil_r].
    + intros (entities & Hall & ->). inversion Hall. unfold mret, res_ret.
      now rewrite app_nil_r.
  - rewrite pass_eq. split.
    + destruct (constructed kwargs_of raises r) as [e|] eqn:Hr; simpl; [|discriminate].
      intros (entities & Hall & ->)%IH. exists (e :: entities).
      split; [now constructor | now rewrite <- app_assoc].
    + intros (entities & Hall & ->). inversion Hall as [|? e ? rest Hr Hrest]; subst.
      rewrite Hr. simpl. apply IH. exists rest. split; [assumption|].
      now rewrite <- app_assoc.
Qed.

Lemma foldM_pass_Raise (records : list value) (acc : list A) (r : value) (x : exn) :
  r ∈ records ->
  constructed kwargs_of raises r = Raise x ->
  exists x', foldM pass records acc = Raise x'.
Proof.
  intros Hin Hr. revert acc.
  induction records as [|r' records IH]; intros acc; [now apply elem_of_nil in Hin|].
  simpl. rewrite pass_eq.
  destruct (constructed kwargs_of raises r') as [e|x'] eqn:Hr'; simpl; [|eauto].
  apply elem_of_cons in Hin as [->|Hin]; [congruence|]. now apply IH.
Qed.

Lemma foldM_pass_made (records : list value) (entities : list A) :
  foldM pass records [] = Ok entities ->
  entities = omap (made kwargs_of raises) records
  /\ length entities = length records.
Proof.
  intros (es & Hall & ->)%foldM_pass_Ok. simpl. split.
  - induction Hall as [|r e records es Hr _ IH]; [reflexivity|].
    cbn [omap list_omap]. unfold made at 1. rewrite Hr. now f_equal.
  - symmetry. eapply Forall2_length; eassumption.
Qed.

End Loop.

Lemma network_pass_eq {model : MiabisModel} (r : value) (acc : list Network.t) :
  network_pass r acc = match constructed network_kwargs Network_raises r with
                       | Ok e => Ok (acc ++ [e])
                       | Raise x => Raise x
                       end.
Proof.
  unfold network_pass, constructed.
  destruct (network_kwargs r) as [k|]; simpl; [|reflexivity].
  now destruct (construct Network_raises k).
Qed.

Lemma biobank_pass_eq {model : MiabisModel} (r : value) (acc : list Biobank.t) :
  biobank_pass r acc = match constructed biobank_kwargs Biobank_raises r with
                       | Ok e => Ok (acc ++ [e])
                       | Raise x => Raise x
                       end.
Proof.
  unfold biobank_pass, constructed.
  destruct (biobank_kwargs r) as [k|]; simpl; [|reflexivity].
  now destruct (construct Biobank_raises k).
Qed.

Lemma populate_network_unfold {model : MiabisModel} (json_data : value) :
  populate_network_from_json json_data
  = records ← records_of "Networks" json_data; foldM network_pass records [].
Proof.
  unfold populate_network_from_json, records_of.
  destruct (py_get json_data "data" (VDict [])) as [data|]; simpl; [|reflexivity].
  destruct (py_get data "Networks" (VList [])) as [records|]; simpl; reflexivity.
Qed.

Lemma populate_biobank_unfold {model : MiabisModel} (json_data : value) :
  populate_biobank_from_json json_data
  = records ← records_of "Biobanks" json_data; foldM biobank_pass records [].
Proof.
  unfold populate_biobank_from_json, records_of.
  destruct (py_get json_data "data" (VDict [])) as [data|]; simpl; [|reflexivity].
  destruct (py_get data "Biobanks" (VList [])) as [records|]; simpl; reflexivity.
Qed.

(** ** The managing biobank of a network *)

Lemma network_kwargs_managing_biobank (network_json : value) (n : Network.t) :
  network_kwargs network_json = Ok n ->
  Network.managing_biobank_id n = VStr "bbmri-eric:ID:AT_MUG".
Proof.
  unfold network_kwargs. intros H.
  destruct network_json; try discriminate. simpl in H.
  bind_inv H. now injection H as <-.
Qed.

(** C8.  Every network the builder returns has the managing biobank
    identifier ["bbmri-eric:ID:AT_MUG"], whatever the payload holds. *)
Theorem C8_managing_biobank_is_the_placeholder {model : MiabisModel}
    (json_data : value) (networks : list Network.t) :
  populate_network_from_json json_data = Ok networks ->
  Forall (fun n => Network.managing_biobank_id n = VStr "bbmri-eric:ID:AT_MUG") networks.
Proof.
  rewrite populate_network_unfold. intros H.
  destruct (records_of "Networks" json_data) as [records|]; simpl in H; [|discriminate].
  apply (foldM_pass_Ok _ _ _ network_pass_eq) in H as (entities & Hall & ->).
  simpl. induction Hall as [|r e rs es Hr _ IH]; constructor; [|assumption].
  apply constructed_Ok in Hr as [Hr _].
  eapply network_kwargs_managing_biobank; eassumption.
Qed.

(** An instance: both networks of [networks_payload]. *)
Lemma C8_witness :
  exists networks,
    populate_network_from_json (model := accepting) networks_payload = Ok networks
    /\ length networks = 2
    /\ Forall (fun n => Network.managing_biobank_id n = VStr "bbmri-eric:ID:AT_MUG")
         networks.
Proof.
  eexists. split; [vm_compute; reflexivity|]. split; [reflexivity|].
  apply (C8_managing_biobank_is_the_placeholder (model := accepting) networks_payload).
  vm_compute. reflexivity.
Defined.

(** ** The loop of the collection builder *)

Section CollectionLoop.
Context {model : MiabisModel} {remote : Remote}.

Lemma collection_pass_eq (r : value) (acc : list Collection.t) (s : state) :
  collection_pass r acc s
  = match collection_result r with
    | Ok (inl c) => (s, Ok (acc ++ [c]))
    | Ok (inr msg) => (with_event (EvPrint ("Error creating Collection: " ++ msg)%string) s, Ok acc)
    | Raise e => (s, Raise e)
    end.
Proof.
  unfold collection_pass, collection_result, try_except_ValueError, lift, print,
    mbind, M_bind, res_bind, mret, M_ret, construct.
  destruct (collection_kwargs r) as [k|]; [|reflexivity].
  destruct (Collection_raises k) as [[]|]; reflexivity.
Qed.

Lemma foldM_collection_pass_Ok (records : list value) (acc : list Collection.t) (s : state) :
  Forall (fun r => exists x, collection_result r = Ok x) records ->
  foldM collection_pass records acc s
  = ({| world := world s; trace := trace s ++ omap printed records |},
     Ok (acc ++ omap appended records)).
Proof.
  intros Hall. revert acc s.
  induction Hall as [|r records [x Hr] _ IH]; intros acc s.
  - simpl. rewrite !app_nil_r. now destruct s.
  - cbn [foldM]. unfold mbind at 1, M_bind at 1. rewrite collection_pass_eq.
    cbn [omap list_omap]. unfold appended at 1, printed at 1. rewrite Hr.
    destruct x as [c|msg]; rewrite IH; simpl; now rewrite <- app_assoc.
Qed.

Lemma foldM_collection_pass_returns (records : list value) (acc cs : list Collection.t)
    (s s' : state) :
  foldM collection_pass records acc s = (s', Ok cs) ->
  Forall (fun r => exists x, collection_result r = Ok x) records.
Proof.
  revert acc s. induction records as [|r records IH]; intros acc s H; [constructor|].
  cbn [foldM] in H. unfold mbind at 1, M_bind at 1 in H.
  rewrite collection_pass_eq in H.
  destruct (collection_result r) as [[c|msg]|] eqn:Hr; [| |discriminate];
    (constructor; [eauto | eapply IH; eassumption]).
Qed.

(** The builder changes nothing in the world but the printed lines. *)
Lemma foldM_collection_pass_frame (records : list value) (acc : list Collection.t)
    (s s' : state) (out : res (list Collection.t)) :
  foldM collection_pass records acc s = (s', out) ->
  world s' = world s
  /\ exists lines, trace s' = trace s ++ map EvPrint lines.
Proof.
  revert acc s. induction records as [|r records IH]; intros acc s H.
  - injection H as <- _. split; [reflexivity|]. exists []. now rewrite app_nil_r.
  - cbn [foldM] in H. unfold mbind at 1, M_bind at 1 in H.
    rewrite collection_pass_eq in H.
    destruct (collection_result r) as [[c|msg]|].
    + eapply IH; eassumption.
    + apply IH in H as [Hw [lines Ht]]. split; [assumption|].
      eexists (_ :: lines). rewrite Ht. simpl. now rewrite <- app_assoc.
    + injection H as <- _. split; [reflexivity|]. exists []. now rewrite app_nil_r.
Qed.

Lemma foldM_collection_pass_Raise (records : list value) (acc : list Collection.t)
    (s : state) (r : value) (x : exn) :
  r ∈ records ->
  collection_result r = Raise x ->
  exists s' x', foldM collection_pass records acc s = (s', Raise x').
Proof.
  intros Hin Hr.
  destruct (foldM collection_pass records acc s) as [s' [cs|x']] eqn:H; [|eauto].
  apply foldM_collection_pass_returns in H.
  rewrite Forall_forall in H. destruct (H r Hin) as [y Hy]. congruence.
Qed.

Context {codec : Json}.

Lemma populate_collection_unfold (json_str : string) (s : state) :
  populate_collection_from_json json_str s
  = match json_data ← json_loads json_str; records_of "Collections" json_data with
    | Ok records => foldM collection_pass records [] s
    | Raise e => (s, Raise e)
    end.
Proof.
  unfold populate_collection_from_json, records_of, lift, mbind at 1 2, M_bind.
  destruct (json_loads json_str) as [json_data|]; [|reflexivity]. simpl.
  destruct (py_get json_data "data" (VDict [])) as [data|]; [|reflexivity]. simpl.
  destruct (py_get data "Collections" (VList [])) as [records|]; [|reflexivity]. simpl.
  destruct (py_iter records); reflexivity.
Qed.

End CollectionLoop.

(** ** The materials of a collection *)

Section Materials.
Context {model : MiabisModel}.

(** Source line 32 on a list: what it returns are members of the
    enumeration, one for every entry with a truthy name. *)
Lemma material_types_members (xs ys : list value) :
  comprehension
    (fun sample_type => n ← py_get sample_type "name" VNone; mret (truthy n))
    (fun sample_type =>
       n ← py_get sample_type "name" VNone;
       enum_getitem "StorageTemperature" StorageTemperature_members n)
    xs = Ok ys ->
  Forall (fun y => is_enum y = true) ys
  /\ (ys = [] -> Forall (fun x => has_truthy_name x = false) xs).
Proof.
  revert ys. induction xs as [|x xs IH]; intros ys H; simpl in H.
  - injection H as <-. split; constructor.
  - destruct x as [| | | | | |items|]; try discriminate. simpl in H.
    destruct (truthy (default VNone (dict_lookup "name" items))) eqn:Ht.
    + destruct (enum_getitem _ _ _) as [y|] eqn:Ey; simpl in H; [|discriminate].
      destruct (comprehension _ _ xs) as [ys'|] eqn:Eys; simpl in H; [|discriminate].
      injection H as <-. destruct (IH _ eq_refl) as [Hys _]. split; [|discriminate].
      constructor; [|assumption].
      unfold enum_getitem in Ey.
      destruct (default VNone (dict_lookup "name" items)); try discriminate.
      destruct (bool_decide _); [|discriminate]. now injection Ey as <-.
    + destruct (IH _ H) as [Hys Hxs]. split; [assumption|].
      intros ->. constructor; [exact Ht | now apply Hxs].
Qed.

(** Source line 53 on members of an enumeration: a member has no [get]. *)
Lemma material_type_codes_of_members (ys zs : list value) :
  comprehension
    (fun material => n ← py_get material "name" VNone; mret (truthy n))
    (fun material => py_get material "name" VNone)
    ys = Ok zs ->
  Forall (fun y => is_enum y = true) ys ->
  ys = [].
Proof.
  intros H Hys. destruct Hys as [|y ys Hy _]; [reflexivity|].
  destruct y; try discriminate.
Qed.

(** A record with a material of truthy name never gets as far as the
    constructor. *)
Lemma collection_kwargs_materials (items : list (string * value)) (c : Collection.t)
    (xs : list value) :
  collection_kwargs (VDict items) = Ok c ->
  py_iter (default (VList []) (dict_lookup "materials" items)) = Ok xs ->
  Forall (fun x => has_truthy_name x = false) xs.
Proof.
  unfold collection_kwargs. intros H Hxs. simpl in H. rewrite Hxs in H. simpl in H.
  bind_inv H.
  repeat match goal with
    | E : comprehension _ _ _ = Ok _ |- _ =>
        first [ apply material_types_members in E as [? ?]
              | eapply material_type_codes_of_members in E; [|eassumption] ]
    end.
  auto.
Qed.

Lemma collection_result_materials (items : list (string * value)) (xs : list value)
    (x : value) :
  py_iter (default (VList []) (dict_lookup "materials" items)) = Ok xs ->
  x ∈ xs ->
  has_truthy_name x = true ->
  exists e, collection_kwargs (VDict items) = Raise e
            /\ collection_result (VDict items) = Raise e.
Proof.
  intros Hxs Hin Hx. unfold collection_result.
  destruct (collection_kwargs (VDict items)) as [c|e] eqn:Hc; [|eauto].
  eapply collection_kwargs_materials in Hc; [|eassumption].
  rewrite Forall_forall in Hc. specialize (Hc x Hin). congruence.
Qed.

End Materials.

(** C3.  A collection record with a material whose name the enumeration
    does not know is not skipped: the lookup raises before the [try], no
    entity is made from the record (so the token is not turned into some
    member), and the builder raises instead of returning the entities of the
    other records.  When the material is the first of its record and the
    [country] of the record is absent or a mapping, the exception is
    [KeyError]. *)
Theorem C3_unmappable_material_raises
    {model : MiabisModel} {codec : Json} {remote : Remote}
    (json_str : string) (json_data : value) (records materials : list value)
    (items m : list (string * value)) (token : string) (s : state) :
  json_loads json_str = Ok json_data ->
  records_of "Collections" json_data = Ok records ->
  VDict items ∈ records ->
  dict_lookup "materials" items = Some (VList materials) ->
  VDict m ∈ materials ->
  dict_lookup "name" m = Some (VStr token) ->
  token <> "" ->
  token ∉ StorageTemperature_members ->
  (exists e, collection_kwargs (VDict items) = Raise e)
  /\ (exists s' e, populate_collection_from_json json_str s = (s', Raise e))
  /\ (mapping_or_absent items "country" = true ->
      (exists rest, materials = VDict m :: rest) ->
      collection_kwargs (VDict items) = Raise KeyError).
Proof.
  intros Hloads Hrecords Hr Hmaterials Hm Hname Hne Hnot.
  assert (has_truthy_name (VDict m) = true) as Htruthy.
  { simpl. rewrite Hname. simpl. destruct token; [congruence | reflexivity]. }
  destruct (collection_result_materials items materials (VDict m)) as (e & He & Hres);
    [now rewrite Hmaterials | assumption | assumption |].
  split; [eauto|]. split.
  - rewrite populate_collection_unfold, Hloads. simpl. rewrite Hrecords.
    eapply foldM_collection_pass_Raise; eassumption.
  - intros Hcountry [rest ->]. unfold collection_kwargs. simpl.
    unfold mapping_or_absent in Hcountry.
    destruct (dict_lookup "country" items) as [[]|]; try discriminate; simpl;
      rewrite Hmaterials; simpl; rewrite Hname; simpl;
      (destruct token; [congruence|]); simpl;
      rewrite bool_decide_eq_false_2 by assumption; reflexivity.
Qed.

(** An instance: the first record of [unmappable_payload]; the second
    record is well formed, and the builder raises [KeyError]. *)
Lemma C3_witness :
  populate_collection_from_json (model := accepting)
    (codec := decoding_to unmappable_payload) (remote := answering (ok_response VNone))
    "" (start (ok_response VNone))
  = (start (ok_response VNone), Raise KeyError)
  /\ exists e,
      collection_kwargs (model := accepting)
        (VDict [("id", VStr "bbmri-eric:ID:CZ_MMCI:collection:LTS");
                ("materials", VList [VDict [("name", VStr "NOT_A_MATERIAL")]])])
      = Raise e.
Proof.
  split; [vm_compute; reflexivity|].
  refine (proj1 (C3_unmappable_material_raises (model := accepting)
    (codec := decoding_to unmappable_payload) (remote := answering (ok_response VNone))
    "" unmappable_payload _ _ _ [("name", VStr "NOT_A_MATERIAL")] "NOT_A_MATERIAL"
    (start (ok_response VNone)) _ _ _ _ _ _ _ _)).
  - reflexivity.
  - reflexivity.
  - apply list_elem_of_here.
  - reflexivity.
  - apply list_elem_of_here.
  - reflexivity.
  - discriminate.
  - apply (bool_decide_unpack _). vm_compute. exact I.
Defined.

(** C4.  On the record of the example scenario the builder constructs no
    collection: [StorageTemperature["PLASMA"]] raises [KeyError] when the
    enumeration has no member [PLASMA]; when it has one, the member reaches
    source line 53, which calls [get] on it, and that raises
    [AttributeError] (or [Gender["UNKNOWN"]] has raised [KeyError] before).
    The exception is raised outside the [try], so the builder raises it. *)
Theorem C4_scenario_record_raises
    {model : MiabisModel} {codec : Json} {remote : Remote}
    (json_str : string) (s : state) :
  json_loads json_str = Ok scenario_payload ->
  (collection_kwargs scenario_record = Raise KeyError
   \/ collection_kwargs scenario_record = Raise AttributeError)
  /\ (populate_collection_from_json json_str s = (s, Raise KeyError)
      \/ populate_collection_from_json json_str s = (s, Raise AttributeError)).
Proof.
  intros Hloads.
  assert (collection_kwargs scenario_record = Raise KeyError
          \/ collection_kwargs scenario_record = Raise AttributeError) as Hk.
  { unfold collection_kwargs, scenario_record. simpl.
    destruct (bool_decide ("PLASMA" ∈ StorageTemperature_members)); simpl; [|now left].
    rewrite !gender_of_dict_eq. simpl.
    destruct (bool_decide ("UNKNOWN" ∈ Gender_members)); simpl; [now right | now left]. }
  split; [assumption|].
  rewrite populate_collection_unfold, Hloads. simpl.
  unfold mbind, M_bind. rewrite collection_pass_eq. unfold collection_result.
  destruct Hk as [-> | ->]; simpl; [now left | now right].
Qed.

(** An instance: a model library without [PLASMA] among its storage
    temperatures. *)
Lemma C4_witness :
  populate_collection_from_json (model := accepting)
    (codec := decoding_to scenario_payload) (remote := answering (ok_response VNone))
    "" (start (ok_response VNone))
  = (start (ok_response VNone), Raise KeyError)
  \/ populate_collection_from_json (model := accepting)
    (codec := decoding_to scenario_payload) (remote := answering (ok_response VNone))
    "" (start (ok_response VNone))
  = (start (ok_response VNone), Raise AttributeError).
Proof.
  refine (proj2 (C4_scenario_record_raises (model := accepting)
    (codec := decoding_to scenario_payload) (remote := answering (ok_response VNone))
    "" (start (ok_response VNone)) _)).
  reflexivity.
Defined.

(** The record of the scenario without its materials is constructed: the age
    range is (0, [None]) and both genders are [UNKNOWN].  The name of the
    collection is then the last gender token, which the assignment
    expression of source line 42 has bound to [name]. *)
Example scenario_without_materials :
  collection_kwargs (model := accepting)
    (VDict [("sex", VList [VDict [("name", VStr "NAV")]; VDict [("name", VStr "FEMALE")]]);
            ("age_low", VInt 0)])
  = Ok {| Collection.identifier := VStr "";
          Collection.name := VStr "FEMALE";
          Collection.managing_biobank_id := VStr "";
          Collection.contact_name := VStr "unknown";
          Collection.contact_surname := VStr "unknown";
          Collection.contact_email := VStr "unknown";
          Collection.country := VStr "unknown";
          Collection.genders := [VEnum "Gender" "UNKNOWN"; VEnum "Gender" "UNKNOWN"];
          Collection.material_types := [];
          Collection.age_range_low := VInt 0;
          Collection.age_range_high := VNone;
          Collection.diagnoses := [];
          Collection.description := VStr "unknown" |}.
Proof. vm_compute. reflexivity. Qed.

(** ** Running the script *)

Section Run.
Context {remote : Remote}.

Lemma bind_Ok {A B : Type} (m : M A) (f : A -> M B) (s s' : state) (a : A) :
  m s = (s', Ok a) -> (m ≫= f) s = f a s'.
Proof. intros H. unfold mbind, M_bind. now rewrite H. Qed.

Lemma lift_bind {A B : Type} (r : res A) (f : A -> M B) (s : state) :
  (lift r ≫= f) s = match r with
                     | Ok a => f a s
                     | Raise e => (s, Raise e)
                     end.
Proof. unfold mbind, M_bind, lift. now destruct r. Qed.

Lemma requests_post_Ok (url q : string) (s : state) (w' : World) (r : response) :
  post url q (world s) = (w', Ok r) ->
  requests_post url q s = ({| world := w'; trace := trace s ++ [EvPost url q] |}, Ok r).
Proof.
  intros H. unfold requests_post, returning, call, lift, mbind, M_bind.
  now rewrite H.
Qed.

End Run.

(** ** A fetch that fails *)

Section FetchFailure.
Context {model : MiabisModel} {codec : Json} {remote : Remote}.
Variables (s : state) (r : response) (w' : World).
Hypothesis answer : forall url q, post url q (world s) = (w', Ok r).
Hypothesis not_200 : status_code r <> 200%Z.

Lemma sync_biobanks_not_200 :
  sync_biobanks s
  = reported s r w' "https://directory.bbmri-eric.eu/ERIC/directory/graphql" query.
Proof using answer not_200.
  unfold sync_biobanks. erewrite bind_Ok by (apply requests_post_Ok, answer).
  apply Z.eqb_neq in not_200 as ->.
  unfold print, with_event, reported, failed_to_fetch. simpl. now rewrite <- app_assoc.
Qed.

Lemma sync_networks_not_200 :
  sync_networks s
  = reported s r w' "https://directory.bbmri-eric.eu/ERIC/directory/graphql" networks_query.
Proof using answer not_200.
  unfold sync_networks. erewrite bind_Ok by (apply requests_post_Ok, answer).
  apply Z.eqb_neq in not_200 as ->.
  unfold print, with_event, reported, failed_to_fetch. simpl. now rewrite <- app_assoc.
Qed.

Lemma sync_collections_not_200 :
  sync_collections s
  = reported s r w' "https://directory-emx2-acc.molgenis.net/ERIC/directory/graphql"
      collections_query.
Proof using answer not_200.
  unfold sync_collections. erewrite bind_Ok by (apply requests_post_Ok, answer).
  apply Z.eqb_neq in not_200 as ->.
  unfold print, with_event, reported, failed_to_fetch. simpl. now rewrite <- app_assoc.
Qed.

End FetchFailure.

(** C6.  When the answer to the request has a status outside 200..299, each
    of the three entry points makes its one request, prints one line that
    carries the status and the body, and returns: nothing else is requested
    (no retry), the document of the answer is not read, no constructor is
    called and nothing is uploaded. *)
Theorem C6_fetch_failure_is_reported
    {model : MiabisModel} {codec : Json} {remote : Remote}
    (s : state) (r : response) (w' : World) :
  (forall url q, post url q (world s) = (w', Ok r)) ->
  (status_code r < 200 \/ 300 <= status_code r)%Z ->
  sync_biobanks s
  = reported s r w' "https://directory.bbmri-eric.eu/ERIC/directory/graphql" query
  /\ sync_networks s
     = reported s r w' "https://directory.bbmri-eric.eu/ERIC/directory/graphql"
         networks_query
  /\ sync_collections s
     = reported s r w' "https://directory-emx2-acc.molgenis.net/ERIC/directory/graphql"
         collections_query.
Proof.
  intros Hanswer Hstatus.
  assert (status_code r <> 200%Z) as Hne by lia.
  split; [|split].
  - now apply sync_biobanks_not_200.
  - now apply sync_networks_not_200.
  - now apply sync_collections_not_200.
Qed.

(** An instance: status 503.  The run of [sync_collections] is the request
    and the line ["Failed to fetch data: 503 - Service Unavailable"]. *)
Lemma C6_witness :
  trace (fst (sync_collections (model := accepting) (codec := decoding_to VNone)
                (remote := answering unavailable) (start unavailable)))
  = [EvPost "https://directory-emx2-acc.molgenis.net/ERIC/directory/graphql"
       collections_query;
     EvPrint "Failed to fetch data: 503 - Service Unavailable"].
Proof.
  assert (300 <= status_code unavailable)%Z as Hstatus by (vm_compute; discriminate).
  pose proof (C6_fetch_failure_is_reported (model := accepting)
    (codec := decoding_to VNone) (remote := answering unavailable)
    (start unavailable) unavailable tt
    (fun _ _ => eq_refl) (or_intror Hstatus)) as (_ & _ & H).
  etransitivity; [exact (f_equal (fun out => trace (fst out)) H)|].
  vm_compute. reflexivity.
Defined.

(** ** The upload loops *)

Section Uploads.
Context {remote : Remote} {A : Type} (proj : event -> option A) (body : A -> M unit).
Hypothesis body_uploads : forall x s s' out,
  body x s = (s', out) ->
  omap proj (trace s') = omap proj (trace s) ++ [x]
  \/ (omap proj (trace s') = omap proj (trace s) /\ out <> Ok tt).

Lemma for_each_uploads (xs : list A) (s s' : state) (out : res unit) :
  for_each body xs s = (s', out) ->
  exists published,
    omap proj (trace s') = omap proj (trace s) ++ published
    /\ published `prefix_of` xs
    /\ (out = Ok tt -> published = xs).
Proof using body_uploads.
  revert s. induction xs as [|x xs IH]; intros s H.
  - injection H as <- <-. exists []. now rewrite app_nil_r.
  - unfold for_each in H. cbn [foldM] in H.
    unfold mbind at 1, M_bind at 1 in H.
    destruct (body x s) as [s1 [[]|e]] eqn:Hx.
    + destruct (body_uploads _ _ _ _ Hx) as [Hup | [_ Hne]]; [|congruence].
      apply IH in H as (published & Htrace & Hprefix & Hall).
      exists (x :: published). rewrite Htrace, Hup, <- app_assoc.
      split; [reflexivity|]. split; [now apply prefix_cons|].
      intros Hout. now rewrite Hall.
    + injection H as <- <-.
      destruct (body_uploads _ _ _ _ Hx) as [Hup | [Hsame _]].
      * exists [x]. split; [assumption|].
        split; [apply (prefix_app_r [x] [x] xs); reflexivity | discriminate].
      * exists []. rewrite app_nil_r.
        split; [assumption|]. split; [apply prefix_nil | discriminate].
Qed.

End Uploads.

Section UploadBodies.
Context {model : MiabisModel} {remote : Remote}.

Lemma raising_call_trace (ev : event) (f : World -> World * option exn)
    (s s' : state) (out : res unit) :
  raising (call ev f) s = (s', out) -> trace s' = trace s ++ [ev].
Proof.
  unfold raising, call, mbind, M_bind.
  destruct (f (world s)) as [w [e|]]; now intros [= <- _].
Qed.

Lemma upload_collection_body (c : Collection.t) (s s' : state) (out : res unit) :
  raising (call (EvUploadCollection local_blaze c) (upload_collection local_blaze c)) s
  = (s', out) ->
  uploaded_collections (trace s') = uploaded_collections (trace s) ++ [c]
  \/ (uploaded_collections (trace s') = uploaded_collections (trace s) /\ out <> Ok tt).
Proof.
  intros ->%raising_call_trace. left. unfold uploaded_collections.
  now rewrite omap_app.
Qed.

Lemma upload_biobank_body (b : Biobank.t) (s s' : state) (out : res unit) :
  (line ← lift (Biobank_fhir_json b);
   print line;;
   raising (call (EvUploadBiobank local_blaze b) (upload_biobank local_blaze b))) s
  = (s', out) ->
  uploaded_biobanks (trace s') = uploaded_biobanks (trace s) ++ [b]
  \/ (uploaded_biobanks (trace s') = uploaded_biobanks (trace s) /\ out <> Ok tt).
Proof.
  rewrite lift_bind. destruct (Biobank_fhir_json b) as [line|e].
  - unfold mbind at 1, M_bind at 1, print. intros ->%raising_call_trace.
    left. unfold uploaded_biobanks, with_event. simpl.
    rewrite !omap_app. simpl. now rewrite app_nil_r.
  - intros [= <- <-]. right. split; [reflexivity | discriminate].
Qed.

Lemma upload_network_body (n : Network.t) (s s' : state) (out : res unit) :
  (line ← lift (Network_fhir_json "DFFW3QMQC7KOYRHJ" n);
   print line;;
   raising (call (EvUploadNetwork local_blaze n) (upload_network local_blaze n))) s
  = (s', out) ->
  uploaded_networks (trace s') = uploaded_networks (trace s) ++ [n]
  \/ (uploaded_networks (trace s') = uploaded_networks (trace s) /\ out <> Ok tt).
Proof.
  rewrite lift_bind. destruct (Network_fhir_json _ n) as [line|e].
  - unfold mbind at 1, M_bind at 1, print. intros ->%raising_call_trace.
    left. unfold uploaded_networks, with_event. simpl.
    rewrite !omap_app. simpl. now rewrite app_nil_r.
  - intros [= <- <-]. right. split; [reflexivity | discriminate].
Qed.

End UploadBodies.

(** ** The order of the entities *)

Section Order.
Context {model : MiabisModel} {remote : Remote}.
Variables (s : state) (r : response) (w' : World) (json_data : value).
Hypothesis answer : forall url q, post url q (world s) = (w', Ok r).
Hypothesis status_200 : status_code r = 200%Z.
Hypothesis document : json r = Ok json_data.

Lemma sync_biobanks_order (records : list value) (s' : state) (out : res unit) :
  records_of "Biobanks" json_data = Ok records ->
  sync_biobanks s = (s', out) ->
  exists published,
    uploaded_biobanks (trace s') = uploaded_biobanks (trace s) ++ published
    /\ in_source_order (made biobank_kwargs Biobank_raises) records published
    /\ (out = Ok tt ->
        published = omap (made biobank_kwargs Biobank_raises) records
        /\ length published = length records).
Proof using answer status_200 document.
  intros Hrecords H. unfold sync_biobanks in H.
  erewrite bind_Ok in H by (apply requests_post_Ok, answer).
  rewrite status_200, Z.eqb_refl, lift_bind, document, lift_bind in H.
  rewrite populate_biobank_unfold, Hrecords in H. simpl in H.
  destruct (foldM biobank_pass records []) as [biobanks|e] eqn:Hfold.
  - apply (foldM_pass_made _ _ _ biobank_pass_eq) in Hfold as [-> Hlen].
    apply (for_each_uploads _ _ upload_biobank_body) in H
      as (published & Htrace & Hprefix & Hall).
    exists published. unfold uploaded_biobanks in *. cbn [trace] in Htrace.
    rewrite omap_app in Htrace. simpl in Htrace. rewrite app_nil_r in Htrace.
    split; [assumption|]. split.
    + eapply in_source_order_prefix; [apply omap_in_source_order | eassumption].
    + intros ->%Hall. split; [reflexivity | assumption].
  - injection H as <- <-. exists []. unfold uploaded_biobanks. cbn [trace].
    rewrite omap_app. simpl. split; [reflexivity|].
    split; [|discriminate]. exists []. split; [apply sublist_nil_l | constructor].
Qed.

Lemma sync_networks_order (records : list value) (s' : state) (out : res unit) :
  records_of "Networks" json_data = Ok records ->
  sync_networks s = (s', out) ->
  exists published,
    uploaded_networks (trace s') = uploaded_networks (trace s) ++ published
    /\ in_source_order (made network_kwargs Network_raises) records published
    /\ (out = Ok tt ->
        published = omap (made network_kwargs Network_raises) records
        /\ length published = length records).
Proof using answer status_200 document.
  intros Hrecords H. unfold sync_networks in H.
  erewrite bind_Ok in H by (apply requests_post_Ok, answer).
  rewrite status_200, Z.eqb_refl, lift_bind, document, lift_bind in H.
  rewrite populate_network_unfold, Hrecords in H. simpl in H.
  destruct (foldM network_pass records []) as [networks|e] eqn:Hfold.
  - apply (foldM_pass_made _ _ _ network_pass_eq) in Hfold as [-> Hlen].
    apply (for_each_uploads _ _ upload_network_body) in H
      as (published & Htrace & Hprefix & Hall).
    exists published. unfold uploaded_networks in *. cbn [trace] in Htrace.
    rewrite omap_app in Htrace. simpl in Htrace. rewrite app_nil_r in Htrace.
    split; [assumption|]. split.
    + eapply in_source_order_prefix; [apply omap_in_source_order | eassumption].
    + intros ->%Hall. split; [reflexivity | assumption].
  - injection H as <- <-. exists []. unfold uploaded_networks. cbn [trace].
    rewrite omap_app. simpl. split; [reflexivity|].
    split; [|discriminate]. exists []. split; [apply sublist_nil_l | constructor].
Qed.

Context {codec : Json}.

Lemma sync_collections_order (json_str : string) (records : list value)
    (s' : state) (out : res unit) :
  json_dumps json_data = Ok json_str ->
  json_loads json_str = Ok json_data ->
  records_of "Collections" json_data = Ok records ->
  sync_collections s = (s', out) ->
  exists published,
    uploaded_collections (trace s') = uploaded_collections (trace s) ++ published
    /\ in_source_order appended records published
    /\ (out = Ok tt -> published = omap appended records).
Proof using answer status_200 document.
  intros Hdumps Hloads Hrecords H. unfold sync_collections in H.
  erewrite bind_Ok in H by (apply requests_post_Ok, answer).
  rewrite status_200, Z.eqb_refl, lift_bind, document, lift_bind, Hdumps in H.
  unfold mbind at 1, M_bind at 1 in H.
  rewrite populate_collection_unfold, Hloads in H. simpl in H.
  rewrite Hrecords in H.
  destruct (foldM collection_pass records [] _) as [s1 [collections|e]] eqn:Hfold.
  - pose proof (foldM_collection_pass_returns _ _ _ _ _ Hfold) as Hall.
    rewrite (foldM_collection_pass_Ok _ _ _ Hall) in Hfold.
    injection Hfold as <- <-.
    apply (for_each_uploads _ _ upload_collection_body) in H
      as (published & Htrace & Hprefix & Hdone).
    exists published. unfold uploaded_collections in *. cbn [trace] in Htrace.
    assert (omap (fun ev => match ev with EvUploadCollection _ c => Some c | _ => None end)
              (omap printed records) = []) as Hprinted.
    { clear. induction records as [|x xs IH]; [reflexivity|].
      cbn [omap list_omap]. unfold printed at 1.
      destruct (collection_result x) as [[c|msg]|]; simpl; exact IH. }
    rewrite !omap_app, Hprinted in Htrace. simpl in Htrace.
    rewrite !app_nil_r in Htrace.
    split; [assumption|]. split.
    + eapply in_source_order_prefix; [apply omap_in_source_order | eassumption].
    + exact Hdone.
  - apply foldM_collection_pass_frame in Hfold as [_ [lines Hlines]].
    injection H as <- <-. exists []. unfold uploaded_collections.
    rewrite Hlines. cbn [trace]. rewrite !omap_app, app_nil_r. simpl.
    assert (omap (fun ev => match ev with EvUploadCollection _ c => Some c | _ => None end)
              (map EvPrint lines) = []) as ->.
    { clear. induction lines as [|x xs IH]; [reflexivity | exact IH]. }
    rewrite !app_nil_r. split; [reflexivity|].
    split; [|discriminate]. exists []. split; [apply sublist_nil_l | constructor].
Qed.

End Order.



(** ** Records that the destination model refuses *)

(** The collection builder: when every pass gets as far as the constructor
    and the constructor raises nothing but [ValueError], the builder returns
    the collections of the records that were accepted, prints one line for
    each of the others, and the two counts add up to the number of
    records. *)
Lemma populate_collection_skips
    {model : MiabisModel} {codec : Json} {remote : Remote}
    (json_str : string) (json_data : value) (records : list value) (s : state) :
  json_loads json_str = Ok json_data ->
  records_of "Collections" json_data = Ok records ->
  Forall (fun r => exists x, collection_result r = Ok x) records ->
  populate_collection_from_json json_str s
  = ({| world := world s; trace := trace s ++ omap printed records |},
     Ok (omap appended records))
  /\ length (omap appended records) + length (omap printed records) = length records.
Proof.
  intros Hloads Hrecords Hall. split.
  - rewrite populate_collection_unfold, Hloads. simpl. rewrite Hrecords.
    now rewrite foldM_collection_pass_Ok.
  - clear Hrecords. induction Hall as [|r rs [x Hr] _ IH]; [reflexivity|].
    cbn [omap list_omap]. unfold appended at 1, printed at 1. rewrite Hr.
    destruct x; simpl; lia.
Qed.

(** C2.  The builders of biobanks and of networks have no [try]: when the
    constructor raises for one record of the payload, the builder raises
    and returns no entity at all, whatever the other records are. *)
Theorem C2_builders_without_try_raise {model : MiabisModel}
    (json_data : value) (records : list value) (r : value) :
  r ∈ records ->
  (records_of "Biobanks" json_data = Ok records ->
   (exists kwargs e, biobank_kwargs r = Ok kwargs /\ Biobank_raises kwargs = Some e) ->
   exists e', populate_biobank_from_json json_data = Raise e')
  /\ (records_of "Networks" json_data = Ok records ->
      (exists kwargs e, network_kwargs r = Ok kwargs /\ Network_raises kwargs = Some e) ->
      exists e', populate_network_from_json json_data = Raise e').
Proof.
  intros Hin. split; intros Hrecords (kwargs & e & Hk & He).
  - rewrite populate_biobank_unfold, Hrecords. simpl.
    eapply (foldM_pass_Raise _ _ _ biobank_pass_eq); [eassumption|].
    unfold constructed, construct. rewrite Hk. simpl. now rewrite He.
  - rewrite populate_network_unfold, Hrecords. simpl.
    eapply (foldM_pass_Raise _ _ _ network_pass_eq); [eassumption|].
    unfold constructed, construct. rewrite Hk. simpl. now rewrite He.
Qed.

(** An instance: [biobanks_payload] with a model library that refuses an
    empty identifier.  One of two records is refused, and the builder
    raises the [ValueError] instead of returning the other biobank. *)
Lemma C2_witness :
  populate_biobank_from_json (model := requiring_identifier) biobanks_payload
  = Raise (ValueError "identifier is empty")
  /\ exists e',
      populate_biobank_from_json (model := requiring_identifier) biobanks_payload
      = Raise e'.
Proof.
  split; [vm_compute; reflexivity|].
  refine (proj1 (C2_builders_without_try_raise (model := requiring_identifier)
    biobanks_payload biobank_records (VDict [("name", VStr "Biobank without identifier")])
    (list_elem_of_here _ _)) eq_refl _).
  eexists. eexists. split; vm_compute; reflexivity.
Defined.

(** The same for networks, and, for comparison, the collection builder on
    [collections_payload]: one of three records is refused, a line is
    printed, and the two other collections are returned. *)
Example network_builder_raises :
  populate_network_from_json (model := requiring_identifier) networks_payload
  = Raise (ValueError "identifier is empty").
Proof. vm_compute. reflexivity. Qed.

Example collection_builder_skips :
  let out := populate_collection_from_json (model := requiring_identifier)
               (codec := decoding_to collections_payload)
               (remote := answering (ok_response VNone)) "" (start (ok_response VNone)) in
  trace (fst out) = [EvPrint "Error creating Collection: identifier is empty"]
  /\ match snd out with
     | Ok collections => map Collection.identifier collections
     | Raise _ => []
     end
     = [VStr "bbmri-eric:ID:CZ_MMCI:collection:LTS";
        VStr "bbmri-eric:ID:AT_MUG:collection:C3"].
Proof. vm_compute. split; reflexivity. Qed.

(** ** Field extraction *)

Lemma default_extract (items : list (string * value)) (k : string) (d : value) :
  default d (dict_lookup k items) = spec_extract (VDict items) [k] d.
Proof. simpl. now destruct (dict_lookup k items). Qed.

Lemma nested_get_extract (items : list (string * value)) (k1 k2 : string) (d : value) :
  mapping_or_absent items k1 = true ->
  py_get (default (VDict []) (dict_lookup k1 items)) k2 d
  = Ok (spec_extract (VDict items) [k1; k2] d).
Proof.
  unfold mapping_or_absent. simpl.
  destruct (dict_lookup k1 items) as [[]|]; try discriminate; intros _; simpl.
  - now destruct (dict_lookup k2 _).
  - reflexivity.
Qed.

Lemma nested_get_not_mapping (items : list (string * value)) (k1 k2 : string) (d : value) :
  mapping_or_absent items k1 = false ->
  py_get (default (VDict []) (dict_lookup k1 items)) k2 d = Raise AttributeError.
Proof.
  unfold mapping_or_absent.
  destruct (dict_lookup k1 items) as [[]|]; try discriminate; reflexivity.
Qed.

Lemma nested_get_Ok (items : list (string * value)) (k1 k2 : string) (d v : value) :
  py_get (default (VDict []) (dict_lookup k1 items)) k2 d = Ok v ->
  mapping_or_absent items k1 = true /\ v = spec_extract (VDict items) [k1; k2] d.
Proof.
  destruct (mapping_or_absent items k1) eqn:Hk.
  - rewrite nested_get_extract by assumption. intros [= <-]. now split.
  - now rewrite nested_get_not_mapping by assumption.
Qed.

Lemma topics_raise (items : list (string * value)) (e : exn) :
  common_collaboration_topics_of (VDict items) = Raise e -> e = AttributeError.
Proof.
  unfold common_collaboration_topics_of. cbn [py_get mbind res_bind].
  destruct (truthy _); [|discriminate].
  destruct (default (VStr "") _); simpl; congruence.
Qed.

(** C5, as the code has it.  For a record that is a mapping: a field read
    with one [get] is the value at its key, or the default of the field when
    the key is absent, and reading it does not raise; a field read through a
    sub-object ([country], [contact], [biobank]) that is absent or a mapping
    is the value at its path, or the default when a key of the path is
    absent, and reading it does not raise; a read through a sub-object that
    is present and is not a mapping raises [AttributeError].

    In the builders: a biobank or a network pass on a record whose
    sub-objects are absent or mappings raises only where its list step
    ([fetch_quality_names], the topics) does, and otherwise passes the
    constructor the extracted values; every collection pass that reaches
    the constructor passes it the extracted values for all scalar fields
    but [name] (which source line 42 may rebind), and a collection pass on a
    record whose sub-objects are absent or mappings and whose list-valued
    fields are absent or empty does reach it; a pass on a record whose
    [country] or [contact] is present and is not a mapping raises
    [AttributeError]. *)
Theorem C5_absent_fields_take_their_defaults {model : MiabisModel}
    (items : list (string * value)) :
  (forall k d, py_get (VDict items) k d = Ok (spec_extract (VDict items) [k] d))
  /\ (forall k1 k2 d,
      mapping_or_absent items k1 = true ->
      (node ← py_get (VDict items) k1 (VDict []); py_get node k2 d)
      = Ok (spec_extract (VDict items) [k1; k2] d))
  /\ (forall k1 k2 d,
      mapping_or_absent items k1 = false ->
      (node ← py_get (VDict items) k1 (VDict []); py_get node k2 d)
      = Raise AttributeError)
  /\ (mapping_or_absent items "country" = true ->
      mapping_or_absent items "contact" = true ->
      biobank_kwargs (VDict items)
      = (names ← fetch_quality_names (spec_extract (VDict items) ["quality"] (VList []));
         Ok {| Biobank.identifier := spec_extract (VDict items) ["id"] (VStr "");
               Biobank.name := spec_extract (VDict items) ["name"] (VStr "");
               Biobank.alias := spec_extract (VDict items) ["acronym"] (VStr "unknown");
               Biobank.country :=
                 spec_extract (VDict items) ["country"; "name"] (VStr "");
               Biobank.contact_name :=
                 spec_extract (VDict items) ["contact"; "first_name"] (VStr "unknown");
               Biobank.contact_surname :=
                 spec_extract (VDict items) ["contact"; "last_name"] (VStr "unknown");
               Biobank.contact_email :=
                 spec_extract (VDict items) ["contact"; "email"] (VStr "unknown");
               Biobank.quality__management_standards := names;
               Biobank.description :=
                 spec_extract (VDict items) ["description"] (VStr "") |}))
  /\ (mapping_or_absent items "contact" = true ->
      network_kwargs (VDict items)
      = (topics ← common_collaboration_topics_of (VDict items);
         Ok {| Network.identifier := spec_extract (VDict items) ["id"] (VStr "");
               Network.name := spec_extract (VDict items) ["name"] (VStr "");
               Network.managing_biobank_id := VStr "bbmri-eric:ID:AT_MUG";
               Network.contact_email :=
                 spec_extract (VDict items) ["contact"; "email"] (VStr "unknown");
               Network.country :=
                 spec_extract (VDict items) ["national_node"] (VStr "unknown");
               Network.juristic_person :=
                 spec_extract (VDict items) ["juridical_person"] (VStr "unknown");
               Network.members_collections_ids := [];
               Network.members_biobanks_ids := [];
               Network.contact_name :=
                 spec_extract (VDict items) ["contact"; "first_name"] (VStr "unknown");
               Network.contact_surname :=
                 spec_extract (VDict items) ["contact"; "last_name"] (VStr "unknown");
               Network.common_collaboration_topics := topics;
               Network.description :=
                 spec_extract (VDict items) ["description"] (VStr "") |}))
  /\ (forall c,
      collection_kwargs (VDict items) = Ok c ->
      Collection.identifier c = spec_extract (VDict items) ["id"] (VStr "")
      /\ Collection.managing_biobank_id c
         = spec_extract (VDict items) ["biobank"; "id"] (VStr "")
      /\ Collection.contact_name c
         = spec_extract (VDict items) ["contact"; "first_name"] (VStr "unknown")
      /\ Collection.contact_surname c
         = spec_extract (VDict items) ["contact"; "last_name"] (VStr "unknown")
      /\ Collection.contact_email c
         = spec_extract (VDict items) ["contact"; "email"] (VStr "unknown")
      /\ Collection.country c
         = spec_extract (VDict items) ["country"; "name"] (VStr "unknown")
      /\ Collection.age_range_low c = spec_extract (VDict items) ["age_low"] VNone
      /\ Collection.age_range_high c = spec_extract (VDict items) ["age_high"] VNone
      /\ Collection.description c
         = spec_extract (VDict items) ["description"] (VStr "unknown"))
  /\ (mapping_or_absent items "country" = true ->
      mapping_or_absent items "contact" = true ->
      mapping_or_absent items "biobank" = true ->
      empty_or_absent items "sex" = true ->
      empty_or_absent items "materials" = true ->
      empty_or_absent items "diagnosis_available" = true ->
      collection_kwargs (VDict items)
      = Ok {| Collection.identifier := spec_extract (VDict items) ["id"] (VStr "");
              Collection.name := spec_extract (VDict items) ["name"] (VStr "");
              Collection.managing_biobank_id :=
                spec_extract (VDict items) ["biobank"; "id"] (VStr "");
              Collection.contact_name :=
                spec_extract (VDict items) ["contact"; "first_name"] (VStr "unknown");
              Collection.contact_surname :=
                spec_extract (VDict items) ["contact"; "last_name"] (VStr "unknown");
              Collection.contact_email :=
                spec_extract (VDict items) ["contact"; "email"] (VStr "unknown");
              Collection.country :=
                spec_extract (VDict items) ["country"; "name"] (VStr "unknown");
              Collection.genders := [];
              Collection.material_types := [];
              Collection.age_range_low := spec_extract (VDict items) ["age_low"] VNone;
              Collection.age_range_high := spec_extract (VDict items) ["age_high"] VNone;
              Collection.diagnoses := [];
              Collection.description :=
                spec_extract (VDict items) ["description"] (VStr "unknown") |})
  /\ (mapping_or_absent items "country" = false ->
      biobank_kwargs (VDict items) = Raise AttributeError
      /\ collection_kwargs (VDict items) = Raise AttributeError)
  /\ (mapping_or_absent items "contact" = false ->
      biobank_kwargs (VDict items) = Raise AttributeError
      /\ network_kwargs (VDict items) = Raise AttributeError).
Proof.
  repeat apply conj.
  - intros k d. apply py_get_dict.
  - intros k1 k2 d Hk1. cbn [py_get mbind res_bind]. now apply nested_get_extract.
  - intros k1 k2 d Hk1. cbn [py_get mbind res_bind]. now apply nested_get_not_mapping.
  - intros Hcountry Hcontact. unfold biobank_kwargs.
    cbn [py_get mbind res_bind].
    rewrite !nested_get_extract by assumption. cbn [mbind res_bind].
    rewrite !default_extract. reflexivity.
  - intros Hcontact. unfold network_kwargs.
    cbn [py_get mbind res_bind].
    destruct (common_collaboration_topics_of (VDict items)) as [topics|e];
      [|reflexivity].
    cbn [mbind res_bind].
    rewrite !nested_get_extract by assumption. cbn [mbind res_bind].
    rewrite !default_extract. reflexivity.
  - intros c H. unfold collection_kwargs in H. simpl in H. bind_inv H.
    repeat match goal with
      | E : py_get (default (VDict []) (dict_lookup _ items)) _ _ = Ok _ |- _ =>
          apply nested_get_Ok in E as [_ ->]
      end.
    injection H as <-. cbn. rewrite !default_extract. repeat split.
  - intros Hcountry Hcontact Hbiobank Hsex Hmaterials Hdiagnoses.
    unfold collection_kwargs. cbn [py_get mbind res_bind].
    rewrite !nested_get_extract by assumption. cbn [mbind res_bind].
    unfold empty_or_absent in *.
    destruct (dict_lookup "sex" items) as [[| | | | |[]| |]|]; try discriminate;
    destruct (dict_lookup "materials" items) as [[| | | | |[]| |]|]; try discriminate;
    destruct (dict_lookup "diagnosis_available" items) as [[| | | | |[]| |]|];
      try discriminate; simpl; rewrite !default_extract; reflexivity.
  - intros Hcountry. split.
    + unfold biobank_kwargs. cbn [py_get mbind res_bind].
      now rewrite (nested_get_not_mapping items "country") by assumption.
    + unfold collection_kwargs. cbn [py_get mbind res_bind].
      now rewrite (nested_get_not_mapping items "country") by assumption.
  - intros Hcontact. split.
    + unfold biobank_kwargs. cbn [py_get mbind res_bind].
      destruct (mapping_or_absent items "country") eqn:Hcountry.
      * rewrite (nested_get_extract items "country") by assumption.
        cbn [mbind res_bind].
        now rewrite !(nested_get_not_mapping items "contact") by assumption.
      * now rewrite (nested_get_not_mapping items "country") by assumption.
    + unfold network_kwargs. cbn [py_get mbind res_bind].
      destruct (common_collaboration_topics_of (VDict items)) as [topics|e] eqn:Ht.
      * cbn [mbind res_bind].
        now rewrite !(nested_get_not_mapping items "contact") by assumption.
      * apply topics_raise in Ht as ->. reflexivity.
Qed.

(** An instance: a biobank record that has only an [id]. *)
Lemma C5_witness :
  biobank_kwargs (VDict [("id", VStr "bbmri-eric:ID:CZ_MMCI")])
  = Ok {| Biobank.identifier := VStr "bbmri-eric:ID:CZ_MMCI";
          Biobank.name := VStr "";
          Biobank.alias := VStr "unknown";
          Biobank.country := VStr "";
          Biobank.contact_name := VStr "unknown";
          Biobank.contact_surname := VStr "unknown";
          Biobank.contact_email := VStr "unknown";
          Biobank.quality__management_standards := [];
          Biobank.description := VStr "" |}.
Proof.
  exact (proj1 (proj2 (proj2 (proj2 (C5_absent_fields_take_their_defaults
    (model := accepting) [("id", VStr "bbmri-eric:ID:CZ_MMCI")])))) eq_refl eq_refl).
Defined.

(** C5, as the claim has it, fails: a [country] that is [null] is present
    and is not a mapping; the Field Extractor of the specification gives the
    default there, the builder raises [AttributeError]. *)
Lemma C5_counterexample :
  spec_extract (VDict [("id", VStr "bbmri-eric:ID:CZ_MMCI"); ("country", VNone)])
    ["country"; "name"] (VStr "") = VStr ""
  /\ biobank_kwargs (VDict [("id", VStr "bbmri-eric:ID:CZ_MMCI"); ("country", VNone)])
     = Raise AttributeError
  /\ populate_biobank_from_json (model := accepting)
       (VDict [("data", VDict [("Biobanks", VList [
          VDict [("id", VStr "bbmri-eric:ID:CZ_MMCI"); ("country", VNone)]])])])
     = Raise AttributeError.
Proof. repeat split; vm_compute; reflexivity. Qed.

(** ** The identifier of an entity *)

Lemma biobank_kwargs_identifier (r : value) (b : Biobank.t) :
  biobank_kwargs r = Ok b -> Biobank.identifier b = spec_extract r ["id"] (VStr "").
Proof.
  unfold biobank_kwargs. intros H. destruct r; try discriminate. simpl in H.
  bind_inv H. injection H as <-. apply default_extract.
Qed.

Lemma network_kwargs_identifier (r : value) (n : Network.t) :
  network_kwargs r = Ok n -> Network.identifier n = spec_extract r ["id"] (VStr "").
Proof.
  unfold network_kwargs. intros H. destruct r; try discriminate. simpl in H.
  bind_inv H. injection H as <-. apply default_extract.
Qed.

Lemma collection_kwargs_identifier {model : MiabisModel} (r : value) (c : Collection.t) :
  collection_kwargs r = Ok c -> Collection.identifier c = spec_extract r ["id"] (VStr "").
Proof.
  unfold collection_kwargs. intros H. destruct r; try discriminate. simpl in H.
  bind_inv H. injection H as <-. apply default_extract.
Qed.

Lemma appended_Some {model : MiabisModel} (r : value) (c : Collection.t) :
  appended r = Some c -> collection_kwargs r = Ok c /\ Collection_raises c = None.
Proof.
  unfold appended, collection_result. intros H.
  destruct (collection_kwargs r) as [k|]; simpl in H; [|discriminate].
  destruct (Collection_raises k) as [[]|] eqn:Hk; try discriminate.
  injection H as <-. now split.
Qed.

Lemma made_Some {A : Type} (kwargs_of : value -> res A) (raises : A -> option exn)
    (r : value) (e : A) :
  made kwargs_of raises r = Some e -> kwargs_of r = Ok e /\ raises e = None.
Proof.
  unfold made. intros H. apply constructed_Ok.
  destruct (constructed kwargs_of raises r); [now injection H as <- | discriminate].
Qed.

Lemma made_of {A : Type} (kwargs_of : value -> res A) (raises : A -> option exn)
    (r : value) (e : A) :
  kwargs_of r = Ok e -> raises e = None -> made kwargs_of raises r = Some e.
Proof.
  intros Hk He. unfold made.
  now rewrite (proj2 (constructed_Ok kwargs_of raises r e) (conj Hk He)).
Qed.

Lemma appended_of {model : MiabisModel} (r : value) (c : Collection.t) :
  collection_kwargs r = Ok c -> Collection_raises c = None -> appended r = Some c.
Proof.
  intros Hk Hc. unfold appended, collection_result. rewrite Hk. simpl. now rewrite Hc.
Qed.

Lemma in_source_order_Forall2 {A : Type} (f : value -> option A) (P : value -> A -> Prop)
    (records : list value) (entities : list A) :
  (forall r e, f r = Some e -> P r e) ->
  in_source_order f records entities ->
  exists kept, kept `sublist_of` records /\ Forall2 P kept entities.
Proof.
  intros HP (kept & Hsub & Hall). exists kept. split; [assumption|].
  eapply Forall2_impl; [exact Hall|]. exact HP.
Qed.

(** C7, as the code has it.  After an answer with status 200, the entities
    a run uploads come, one each and in this order, from records of the
    payload that stand in the payload in this order; each of them has been
    taken by the constructor of the destination model ([Biobank_raises],
    [Network_raises], [Collection_raises] give [None] on it), and its
    identifier is the value of [id] in its own source record, or the empty
    string when that record has no [id].  The script itself does not look at
    the identifier: when the run returns normally, every record whose
    entity the constructor takes has its entity uploaded, with that
    identifier, so also the empty one. *)
Theorem C7_identifier_is_the_source_id
    {model : MiabisModel} {codec : Json} {remote : Remote}
    (s : state) (r : response) (w' : World) (json_data : value) (records : list value) :
  (forall url q, post url q (world s) = (w', Ok r)) ->
  status_code r = 200%Z ->
  json r = Ok json_data ->
  (records_of "Biobanks" json_data = Ok records ->
   forall s' out,
     sync_biobanks s = (s', out) ->
     exists kept published,
       uploaded_biobanks (trace s') = uploaded_biobanks (trace s) ++ published
       /\ kept `sublist_of` records
       /\ Forall2 (fun record b =>
             biobank_kwargs record = Ok b
             /\ Biobank_raises b = None
             /\ Biobank.identifier b = spec_extract record ["id"] (VStr ""))
            kept published
       /\ (out = Ok tt ->
           forall record b,
             record ∈ records ->
             biobank_kwargs record = Ok b ->
             Biobank_raises b = None ->
             b ∈ published
             /\ Biobank.identifier b = spec_extract record ["id"] (VStr "")))
  /\ (records_of "Networks" json_data = Ok records ->
      forall s' out,
        sync_networks s = (s', out) ->
        exists kept published,
          uploaded_networks (trace s') = uploaded_networks (trace s) ++ published
          /\ kept `sublist_of` records
          /\ Forall2 (fun record n =>
                network_kwargs record = Ok n
                /\ Network_raises n = None
                /\ Network.identifier n = spec_extract record ["id"] (VStr ""))
               kept published
          /\ (out = Ok tt ->
              forall record n,
                record ∈ records ->
                network_kwargs record = Ok n ->
                Network_raises n = None ->
                n ∈ published
                /\ Network.identifier n = spec_extract record ["id"] (VStr "")))
  /\ (records_of "Collections" json_data = Ok records ->
      forall json_str,
        json_dumps json_data = Ok json_str ->
        json_loads json_str = Ok json_data ->
        forall s' out,
          sync_collections s = (s', out) ->
          exists kept published,
            uploaded_collections (trace s') = uploaded_collections (trace s) ++ published
            /\ kept `sublist_of` records
            /\ Forall2 (fun record c =>
                  collection_kwargs record = Ok c
                  /\ Collection_raises c = None
                  /\ Collection.identifier c = spec_extract record ["id"] (VStr ""))
                 kept published
            /\ (out = Ok tt ->
                forall record c,
                  record ∈ records ->
                  collection_kwargs record = Ok c ->
                  Collection_raises c = None ->
                  c ∈ published
                  /\ Collection.identifier c = spec_extract record ["id"] (VStr ""))).
Proof.
  intros Hanswer Hstatus Hdocument. split; [|split].
  - intros Hrecords s' out H.
    destruct (sync_biobanks_order s r w' json_data Hanswer Hstatus Hdocument
                records s' out Hrecords H) as (published & Htrace & Horder & Hdone).
    eapply in_source_order_Forall2 in Horder as (kept & Hsub & Hall).
    + exists kept, published. repeat (split; [eassumption|]).
      intros Hout record b Hin Hk Hb. destruct (Hdone Hout) as [-> _].
      split; [|now apply biobank_kwargs_identifier].
      apply list_elem_of_omap. exists record. split; [assumption | now apply made_of].
    + intros record b [Hk Hb]%made_Some.
      repeat split; [assumption | assumption | now apply biobank_kwargs_identifier].
  - intros Hrecords s' out H.
    destruct (sync_networks_order s r w' json_data Hanswer Hstatus Hdocument
                records s' out Hrecords H) as (published & Htrace & Horder & Hdone).
    eapply in_source_order_Forall2 in Horder as (kept & Hsub & Hall).
    + exists kept, published. repeat (split; [eassumption|]).
      intros Hout record n Hin Hk Hn. destruct (Hdone Hout) as [-> _].
      split; [|now apply network_kwargs_identifier].
      apply list_elem_of_omap. exists record. split; [assumption | now apply made_of].
    + intros record n [Hk Hn]%made_Some.
      repeat split; [assumption | assumption | now apply network_kwargs_identifier].
  - intros Hrecords json_str Hdumps Hloads s' out H.
    destruct (sync_collections_order s r w' json_data Hanswer Hstatus Hdocument
                json_str records s' out Hdumps Hloads Hrecords H)
      as (published & Htrace & Horder & Hdone).
    eapply in_source_order_Forall2 in Horder as (kept & Hsub & Hall).
    + exists kept, published. repeat (split; [eassumption|]).
      intros Hout record c Hin Hk Hc. rewrite (Hdone Hout).
      split; [|now apply collection_kwargs_identifier].
      apply list_elem_of_omap. exists record. split; [assumption | now apply appended_of].
    + intros record c [Hk Hc]%appended_Some.
      repeat split; [assumption | assumption | now apply collection_kwargs_identifier].
Qed.

(** An instance: the run of [sync_biobanks] on [biobanks_payload] with a
    model library that accepts everything returns normally, and the record
    without [id] is uploaded with the empty identifier. *)
Lemma C7_witness :
  exists b,
    b ∈ uploaded_biobanks
          (trace (fst (sync_biobanks (model := accepting)
                         (remote := answering (ok_response biobanks_payload))
                         (start (ok_response biobanks_payload)))))
    /\ Biobank.identifier b
       = spec_extract (VDict [("name", VStr "Biobank without identifier")]) ["id"] (VStr "").
Proof.
  pose proof (C7_identifier_is_the_source_id (model := accepting)
    (codec := decoding_to biobanks_payload)
    (remote := answering (ok_response biobanks_payload))
    (start (ok_response biobanks_payload)) (ok_response biobanks_payload) tt
    biobanks_payload biobank_records (fun _ _ => eq_refl) eq_refl eq_refl) as (H & _ & _).
  destruct (H eq_refl _ _ (surjective_pairing _))
    as (kept & published & Htrace & _ & _ & Hdone).
  simpl app in Htrace. rewrite Htrace.
  eexists. eapply (Hdone ltac:(vm_compute; reflexivity)
                     (VDict [("name", VStr "Biobank without identifier")])).
  - apply list_elem_of_here.
  - cbv. reflexivity.
  - reflexivity.
Defined.

(** C7, as the claim has it, fails: nothing in the script refuses an empty
    identifier.  With a model library that accepts it, the record without
    [id] of [biobanks_payload] is uploaded with the identifier [""]. *)
Lemma C7_counterexample :
  map Biobank.identifier
    (uploaded_biobanks
       (trace (fst (sync_biobanks (model := accepting)
                      (remote := answering (ok_response biobanks_payload))
                      (start (ok_response biobanks_payload))))))
  = [VStr ""; VStr "bbmri-eric:ID:CZ_MMCI"].
Proof. vm_compute. reflexivity. Qed.

(** * Further properties of the script *)

(** ** The quality standards of a biobank *)

Lemma quality_loop (items : list value) (names : list value) :
  foldM (fun item names =>
           quality_standard ← py_get item "quality_standard" (VDict []);
           name ← py_get quality_standard "name" VNone;
           mret (if truthy name then (names ++ [name])%list else names))
        items names
  = if forallb quality_item_ok items
    then Ok (names ++ List.filter truthy (map quality_name items))
    else Raise AttributeError.
Proof.
  revert names. induction items as [|item items IH]; intros names.
  - simpl. now rewrite app_nil_r.
  - cbn [foldM forallb map List.filter].
    destruct item as [| | | | | |its|]; try reflexivity.
    cbn [py_get mbind res_bind quality_item_ok].
    destruct (mapping_or_absent its "quality_standard") eqn:Hm.
    + rewrite nested_get_extract by assumption.
      change (spec_extract (VDict its) ["quality_standard"; "name"] VNone)
        with (quality_name (VDict its)).
      unfold mret, res_ret. cbn [mbind res_bind andb]. rewrite IH.
      destruct (truthy (quality_name (VDict its))); [|reflexivity].
      now rewrite <- app_assoc.
    + now rewrite nested_get_not_mapping by assumption.
Qed.

(** X1.  On a list, [fetch_quality_names] returns the truthy names at
    [quality_standard.name] of the entries, in the order of the entries,
    when every entry is a mapping whose [quality_standard] is absent or a
    mapping; otherwise it raises [AttributeError].  An entry without a
    standard or without a truthy name adds nothing; an empty list gives an
    empty list.  On [None] it raises [TypeError]. *)
Theorem X1_fetch_quality_names_keeps_truthy_names (items : list value) :
  fetch_quality_names (VList items)
  = (if forallb quality_item_ok items
     then Ok (List.filter truthy (map quality_name items))
     else Raise AttributeError)
  /\ fetch_quality_names VNone = Raise TypeError.
Proof.
  split; [|reflexivity].
  unfold fetch_quality_names. cbn [py_iter mbind res_bind].
  now rewrite quality_loop.
Qed.

(** ** What a constructed collection holds *)

Lemma last_cons {A : Type} (x d : A) (l : list A) :
  List.last (x :: l) d = List.last l x.
Proof.
  destruct l as [|y l]; [reflexivity|].
  change (List.last (x :: y :: l) d) with (List.last (y :: l) d).
  revert y. induction l as [|z l IH]; intros y; [reflexivity|].
  change (List.last (z :: l) d = List.last (z :: l) x). apply IH.
Qed.

Section Constructed.
Context {model : MiabisModel}.

Lemma gender_of_name (g name gender : value) :
  gender_of g = Ok (name, gender) -> name = at_key "name" g /\ is_dict g = true.
Proof.
  unfold gender_of. intros H.
  destruct g as [| | | | | |items|]; try discriminate. simpl in H.
  bind_inv H. injection H as <- _. split; [|reflexivity].
  unfold at_key. simpl. now destruct (dict_lookup "name" items).
Qed.

Lemma genders_of_name (sex : list value) (name name' : value) (genders : list value) :
  genders_of sex name = Ok (name', genders) ->
  name' = List.last (map (at_key "name") (List.filter has_name sex)) name.
Proof.
  revert name name' genders.
  induction sex as [|g sex IH]; intros name name' genders H; simpl in H.
  - now injection H as <- _.
  - destruct g as [| | | | | |items|]; try discriminate.
    cbn [py_get mbind res_bind] in H. cbn [List.filter has_name].
    destruct (is_not_None (default VNone (dict_lookup "name" items))).
    + destruct (gender_of (VDict items)) as [[n1 gender]|] eqn:Eg; simpl in H;
        [|discriminate].
      destruct (genders_of sex n1) as [[n2 rest]|] eqn:Er; simpl in H; [|discriminate].
      injection H as <- _. apply gender_of_name in Eg as [-> _].
      cbn [map]. rewrite last_cons. eapply IH; eassumption.
    + eapply IH; eassumption.
Qed.

Lemma comprehension_of_key (k : string) (xs ys : list value) :
  comprehension
    (fun x => v ← py_get x k VNone; mret (truthy v))
    (fun x => py_get x k VNone)
    xs = Ok ys ->
  ys = List.filter truthy (map (at_key k) xs).
Proof.
  revert ys. induction xs as [|x xs IH]; intros ys H; simpl in H.
  - now injection H as <-.
  - destruct x as [| | | | | |items|]; try discriminate.
    cbn [py_get mbind res_bind] in H. cbn [map List.filter].
    unfold at_key at 1. cbn [spec_extract].
    replace (match dict_lookup k items with Some v => v | None => VNone end)
      with (default VNone (dict_lookup k items)) by now destruct (dict_lookup k items).
    unfold mret, res_ret in H.
    destruct (truthy (default VNone (dict_lookup k items))).
    + destruct (comprehension _ _ xs) as [ys'|]; simpl in H; [|discriminate].
      injection H as <-. f_equal. now apply IH.
    + now apply IH.
Qed.

End Constructed.

(** X2.  Every collection the builder constructs has an empty list of
    material types: a material with a truthy name makes the pass raise
    (source lines 32 and 53), and the materials without one are left out. *)
Theorem X2_material_types_are_empty {model : MiabisModel}
    (collection_json : value) (c : Collection.t) :
  collection_kwargs collection_json = Ok c ->
  Collection.material_types c = [].
Proof.
  unfold collection_kwargs. intros H.
  destruct collection_json; try discriminate. simpl in H.
  bind_inv H. injection H as <-. simpl.
  repeat match goal with
    | E : mbind _ (py_iter ?v) = Ok _ |- _ =>
        destruct (py_iter v); simpl in E; [|discriminate E]
    end.
  match goal with
  | E1 : comprehension _ _ _ = Ok ?ys, E2 : comprehension _ _ ?ys = Ok ?zs |- ?zs = [] =>
      apply material_types_members in E1 as [Hys _];
      pose proof (material_type_codes_of_members _ _ E2 Hys) as ->;
      simpl in E2; now injection E2 as <-
  end.
Qed.

(** An instance: the materials of [sample_collection] have no truthy name. *)
Lemma X2_witness :
  exists c,
    collection_kwargs (model := accepting) (VDict sample_collection) = Ok c
    /\ Collection.material_types c = [].
Proof.
  eexists. split; [vm_compute; reflexivity|].
  apply (X2_material_types_are_empty (model := accepting) (VDict sample_collection)).
  vm_compute. reflexivity.
Defined.

(** X3.  The name a collection is constructed with is the [name] of the
    last entry of its [sex] list that has a name (present and not null),
    and the [name] of the record only when there is no such entry: the
    assignment expression of source line 42 rebinds [name]. *)
Theorem X3_name_is_the_last_gender_token {model : MiabisModel}
    (items : list (string * value)) (c : Collection.t) (sex : list value) :
  collection_kwargs (VDict items) = Ok c ->
  py_iter (spec_extract (VDict items) ["sex"] (VList [])) = Ok sex ->
  Collection.name c
  = List.last (map (at_key "name") (List.filter has_name sex))
      (spec_extract (VDict items) ["name"] (VStr "")).
Proof.
  rewrite <- !default_extract. unfold collection_kwargs. intros H Hsex.
  simpl in H. rewrite Hsex in H. simpl in H.
  bind_inv H.
  match goal with
  | E : genders_of _ _ = Ok _ |- _ => apply genders_of_name in E
  end.
  injection H as <-. simpl. assumption.
Qed.

(** An instance: the record is named [LTS], the collection [FEMALE]. *)
Lemma X3_witness :
  exists c,
    collection_kwargs (model := accepting) (VDict sample_collection) = Ok c
    /\ spec_extract (VDict sample_collection) ["name"] (VStr "") = VStr "LTS"
    /\ Collection.name c = VStr "FEMALE".
Proof.
  eexists. split; [vm_compute; reflexivity|]. split; [reflexivity|].
  etransitivity.
  - apply (X3_name_is_the_last_gender_token (model := accepting)
             sample_collection _ sample_sex); [vm_compute; reflexivity | reflexivity].
  - vm_compute. reflexivity.
Defined.

(** X4.  The diagnoses a collection is constructed with are the truthy
    values at [code] of the entries of [diagnosis_available], in the order
    of the entries; an entry without a code, or with an empty one, is left
    out. *)
Theorem X4_diagnoses_are_the_truthy_codes {model : MiabisModel}
    (items : list (string * value)) (c : Collection.t) (diagnoses : list value) :
  collection_kwargs (VDict items) = Ok c ->
  py_iter (spec_extract (VDict items) ["diagnosis_available"] (VList [])) = Ok diagnoses ->
  Collection.diagnoses c = List.filter truthy (map (at_key "code") diagnoses).
Proof.
  rewrite <- !default_extract. unfold collection_kwargs. intros H Hd.
  simpl in H. rewrite Hd in H. simpl in H.
  bind_inv H. injection H as <-. simpl.
  match goal with
  | E : comprehension _ _ diagnoses = Ok _ |- _ => now apply comprehension_of_key in E
  end.
Qed.

(** An instance: two of the three diagnoses of [sample_collection]. *)
Lemma X4_witness :
  exists c,
    collection_kwargs (model := accepting) (VDict sample_collection) = Ok c
    /\ Collection.diagnoses c = [VStr "urn:miriam:icd:C18"; VStr "urn:miriam:icd:C20"].
Proof.
  eexists. split; [vm_compute; reflexivity|].
  etransitivity.
  - apply (X4_diagnoses_are_the_truthy_codes (model := accepting)
             sample_collection _ sample_diagnoses); [vm_compute; reflexivity | reflexivity].
  - vm_compute. reflexivity.
Defined.

(** ** What the collection builder does not catch, and what it leaves alone *)

(** X5.  The [try] of the collection builder catches [ValueError] only:
    when the constructor raises an exception of another class for a record
    of the payload, the builder raises and returns no collection. *)
Theorem X5_other_exceptions_leave_the_collection_builder
    {model : MiabisModel} {codec : Json} {remote : Remote}
    (json_str : string) (json_data : value) (records : list value) (r : value)
    (kwargs : Collection.t) (e : exn) (s : state) :
  json_loads json_str = Ok json_data ->
  records_of "Collections" json_data = Ok records ->
  r ∈ records ->
  collection_kwargs r = Ok kwargs ->
  Collection_raises kwargs = Some e ->
  not_ValueError e = true ->
  exists s' e', populate_collection_from_json json_str s = (s', Raise e').
Proof.
  intros Hloads Hrecords Hin Hk He Hne.
  rewrite populate_collection_unfold, Hloads. simpl. rewrite Hrecords.
  eapply foldM_collection_pass_Raise; [eassumption|].
  unfold collection_result. rewrite Hk. simpl. rewrite He.
  destruct e; try reflexivity. discriminate.
Qed.

(** An instance: a constructor that raises [TypeError] on an identifier
    that is not truthy, and the second record of [collection_records]. *)
Lemma X5_witness :
  exists s' e',
    populate_collection_from_json
      (model := model_deciding (fun identifier =>
                  if truthy identifier then None else Some TypeError))
      (codec := decoding_to collections_payload)
      (remote := answering (ok_response VNone)) "" (start (ok_response VNone))
    = (s', Raise e').
Proof.
  eapply (X5_other_exceptions_leave_the_collection_builder
            (model := model_deciding (fun identifier =>
                        if truthy identifier then None else Some TypeError))
            (codec := decoding_to collections_payload)
            (remote := answering (ok_response VNone))
            "" collections_payload collection_records
            (VDict [("name", VStr "Collection without identifier")])).
  - reflexivity.
  - reflexivity.
  - apply list_elem_of_further, list_elem_of_here.
  - vm_compute. reflexivity.
  - reflexivity.
  - reflexivity.
Defined.

Lemma posted_prints (tr : list event) (lines : list string) :
  posted (tr ++ map EvPrint lines) = posted tr.
Proof.
  unfold posted. rewrite omap_app.
  assert (omap (fun ev => match ev with EvPost url q => Some (url, q) | _ => None end)
            (map EvPrint lines) = []) as ->
    by (induction lines as [|x xs IH]; [reflexivity | exact IH]).
  apply app_nil_r.
Qed.

Lemma populate_collection_frame
    {model : MiabisModel} {codec : Json} {remote : Remote}
    (json_str : string) (s : state) :
  world (fst (populate_collection_from_json json_str s)) = world s
  /\ exists lines,
      trace (fst (populate_collection_from_json json_str s))
      = trace s ++ map EvPrint lines.
Proof.
  rewrite populate_collection_unfold.
  destruct (json_data ← json_loads json_str; records_of "Collections" json_data)
    as [records|e].
  - destruct (foldM collection_pass records [] s) as [s' out] eqn:H.
    apply foldM_collection_pass_frame in H. exact H.
  - split; [reflexivity|]. exists []. simpl. now rewrite app_nil_r.
Qed.

(** X6.  The collection builder does nothing to the world: it leaves the
    state of the world as it is, and all it adds to the record of the run
    are printed lines, whatever the text it is given and whether it returns
    or raises. *)
Theorem X6_collection_builder_only_prints
    {model : MiabisModel} {codec : Json} {remote : Remote}
    (json_str : string) (s : state) :
  world (fst (populate_collection_from_json json_str s)) = world s
  /\ exists lines,
      trace (fst (populate_collection_from_json json_str s))
      = trace s ++ map EvPrint lines.
Proof. apply populate_collection_frame. Qed.

(** ** The requests of a run *)

Section Posted.
Context {model : MiabisModel} {remote : Remote}.

Lemma posted_snoc (tr : list event) (ev : event) :
  (forall url q, ev <> EvPost url q) -> posted (tr ++ [ev]) = posted tr.
Proof.
  intros Hev. unfold posted. rewrite omap_app. simpl.
  destruct ev as [u q| | | |]; try apply app_nil_r. now destruct (Hev u q).
Qed.

Lemma requests_post_posted (url q : string) (s : state) :
  posted (trace (fst (requests_post url q s))) = posted (trace s) ++ [(url, q)].
Proof.
  unfold requests_post, returning, call, lift, mbind, M_bind.
  destruct (post url q (world s)) as [w [r|e]]; simpl;
    unfold posted; now rewrite omap_app.
Qed.

Lemma for_each_posted {A : Type} (body : A -> M unit) (xs : list A) (s : state) :
  (forall x s0, posted (trace (fst (body x s0))) = posted (trace s0)) ->
  posted (trace (fst (for_each body xs s))) = posted (trace s).
Proof.
  intros Hbody. revert s. induction xs as [|x xs IH]; intros s; [reflexivity|].
  unfold for_each. cbn [foldM]. unfold mbind at 1, M_bind at 1.
  specialize (Hbody x s). destruct (body x s) as [s1 [[]|e]]; simpl in Hbody.
  - rewrite <- Hbody. apply IH.
  - exact Hbody.
Qed.

Lemma raising_call_posted (ev : event) (f : World -> World * option exn) (s : state) :
  (forall url q, ev <> EvPost url q) ->
  posted (trace (fst (raising (call ev f) s))) = posted (trace s).
Proof.
  intros Hev.
  rewrite (raising_call_trace ev f s _ _ (surjective_pairing _)).
  now apply posted_snoc.
Qed.

Lemma print_then_upload_posted (line : res string) (ev : event)
    (f : World -> World * option exn) (s : state) :
  (forall url q, ev <> EvPost url q) ->
  posted (trace (fst ((l ← lift line; print l;; raising (call ev f)) s)))
  = posted (trace s).
Proof.
  intros Hev. rewrite lift_bind. destruct line as [l|e]; [|reflexivity].
  unfold mbind at 1, M_bind at 1, print. rewrite raising_call_posted by assumption.
  unfold with_event. simpl. now apply posted_snoc.
Qed.

End Posted.

(** X7.  Every run of an entry point makes exactly one request, the POST
    of its query to its address: whether the request fails or is answered,
    whatever the status and the document of the answer, whether the builder
    or an upload raises or not, no second request is made. *)
Theorem X7_one_request_per_run
    {model : MiabisModel} {codec : Json} {remote : Remote} (s : state) :
  posted (trace (fst (sync_biobanks s)))
  = posted (trace s)
    ++ [("https://directory.bbmri-eric.eu/ERIC/directory/graphql", query)]
  /\ posted (trace (fst (sync_networks s)))
     = posted (trace s)
       ++ [("https://directory.bbmri-eric.eu/ERIC/directory/graphql", networks_query)]
  /\ posted (trace (fst (sync_collections s)))
     = posted (trace s)
       ++ [("https://directory-emx2-acc.molgenis.net/ERIC/directory/graphql",
            collections_query)].
Proof.
  split; [|split].
  - unfold sync_biobanks. unfold mbind at 1, M_bind at 1.
    pose proof (requests_post_posted
      "https://directory.bbmri-eric.eu/ERIC/directory/graphql" query s) as Hpost.
    destruct (requests_post _ query s) as [s1 [r|e]]; simpl in Hpost; [|exact Hpost].
    rewrite <- Hpost. destruct (status_code r =? 200)%Z; [|now apply posted_snoc].
    rewrite lift_bind. destruct (json r) as [json_data|]; [|reflexivity].
    rewrite lift_bind. destruct (populate_biobank_from_json json_data); [|reflexivity].
    apply for_each_posted. intros b s0. now apply print_then_upload_posted.
  - unfold sync_networks. unfold mbind at 1, M_bind at 1.
    pose proof (requests_post_posted
      "https://directory.bbmri-eric.eu/ERIC/directory/graphql" networks_query s) as Hpost.
    destruct (requests_post _ networks_query s) as [s1 [r|e]]; simpl in Hpost;
      [|exact Hpost].
    rewrite <- Hpost. destruct (status_code r =? 200)%Z; [|now apply posted_snoc].
    rewrite lift_bind. destruct (json r) as [json_data|]; [|reflexivity].
    rewrite lift_bind. destruct (populate_network_from_json json_data); [|reflexivity].
    apply for_each_posted. intros n s0. now apply print_then_upload_posted.
  - unfold sync_collections. unfold mbind at 1, M_bind at 1.
    pose proof (requests_post_posted
      "https://directory-emx2-acc.molgenis.net/ERIC/directory/graphql"
      collections_query s) as Hpost.
    destruct (requests_post _ collections_query s) as [s1 [r|e]]; simpl in Hpost;
      [|exact Hpost].
    rewrite <- Hpost. destruct (status_code r =? 200)%Z; [|now apply posted_snoc].
    rewrite lift_bind. destruct (json r) as [json_data|]; [|reflexivity].
    rewrite lift_bind. destruct (json_dumps json_data) as [json_str|]; [|reflexivity].
    unfold mbind at 1, M_bind at 1.
    destruct (populate_collection_frame json_str s1) as [_ [lines Hlines]].
    destruct (populate_collection_from_json json_str s1) as [s2 [collections|e]];
      simpl in Hlines.
    + rewrite for_each_posted by (intros c s0; now apply raising_call_posted).
      rewrite Hlines. apply posted_prints.
    + simpl. rewrite Hlines. apply posted_prints.
Qed.

(** ** A whole run of [sync_collections] *)

Section CollectionsRun.
Context {model : MiabisModel} {codec : Json} {remote : Remote}.

Lemma upload_collection_step (c : Collection.t) (s : state) :
  raising (call (EvUploadCollection local_blaze c) (upload_collection local_blaze c)) s
  = ({| world := fst (upload_collection local_blaze c (world s));
        trace := trace s ++ [EvUploadCollection local_blaze c] |},
     match snd (upload_collection local_blaze c (world s)) with
     | None => Ok tt
     | Some e => Raise e
     end).
Proof.
  unfold raising, call, mbind, M_bind.
  now destruct (upload_collection local_blaze c (world s)) as [w [e|]].
Qed.

Lemma uploads_all_return (collections : list Collection.t) (s : state) :
  Forall (fun c => forall w, snd (upload_collection local_blaze c w) = None) collections ->
  exists w,
    for_each (fun c => raising (call (EvUploadCollection local_blaze c)
                                     (upload_collection local_blaze c)))
      collections s
    = ({| world := w;
          trace := trace s ++ map (EvUploadCollection local_blaze) collections |},
       Ok tt).
Proof.
  intros Hall. revert s. induction Hall as [|c cs Hc _ IH]; intros s.
  - exists (world s). simpl. rewrite app_nil_r. now destruct s.
  - unfold for_each. cbn [foldM]. unfold mbind at 1, M_bind at 1.
    rewrite upload_collection_step, Hc.
    destruct (IH {| world := fst (upload_collection local_blaze c (world s));
                    trace := trace s ++ [EvUploadCollection local_blaze c] |})
      as [w Hw].
    exists w. unfold for_each in Hw. rewrite Hw. simpl. now rewrite <- app_assoc.
Qed.

Lemma uploads_stop (before after : list Collection.t) (c : Collection.t) (e : exn)
    (s : state) :
  Forall (fun c => forall w, snd (upload_collection local_blaze c w) = None) before ->
  (forall w, snd (upload_collection local_blaze c w) = Some e) ->
  exists w,
    for_each (fun c => raising (call (EvUploadCollection local_blaze c)
                                     (upload_collection local_blaze c)))
      (before ++ c :: after) s
    = ({| world := w;
          trace := trace s ++ map (EvUploadCollection local_blaze) (before ++ [c]) |},
       Raise e).
Proof.
  intros Hall Hc. revert s. induction Hall as [|b bs Hb _ IH]; intros s.
  - unfold for_each. cbn [app foldM]. unfold mbind at 1, M_bind at 1.
    rewrite upload_collection_step, Hc. eauto.
  - unfold for_each. cbn [app foldM]. unfold mbind at 1, M_bind at 1.
    rewrite upload_collection_step, Hb.
    destruct (IH {| world := fst (upload_collection local_blaze b (world s));
                    trace := trace s ++ [EvUploadCollection local_blaze b] |})
      as [w Hw].
    exists w. unfold for_each in Hw. rewrite Hw. simpl. now rewrite <- app_assoc.
Qed.

Lemma uploaded_collections_app (tr1 tr2 : list event) :
  uploaded_collections (tr1 ++ tr2) = uploaded_collections tr1 ++ uploaded_collections tr2.
Proof. apply omap_app. Qed.

Lemma uploaded_collections_printed (records : list value) :
  uploaded_collections (omap printed records) = [].
Proof.
  induction records as [|x xs IH]; [reflexivity|].
  cbn [omap list_omap]. unfold printed at 1.
  destruct (collection_result x) as [[k|msg]|]; simpl; exact IH.
Qed.

Lemma uploaded_collections_uploads (collections : list Collection.t) :
  uploaded_collections (map (EvUploadCollection local_blaze) collections) = collections.
Proof.
  induction collections as [|x xs IH]; [reflexivity|].
  change (x :: uploaded_collections (map (EvUploadCollection local_blaze) xs) = x :: xs).
  now rewrite IH.
Qed.

Lemma sync_collections_200_run (s : state) (r : response) (w' : World)
    (json_data : value) (json_str : string) (records : list value) :
  (forall url q, post url q (world s) = (w', Ok r)) ->
  status_code r = 200%Z ->
  json r = Ok json_data ->
  json_dumps json_data = Ok json_str ->
  json_loads json_str = Ok json_data ->
  records_of "Collections" json_data = Ok records ->
  Forall (fun record => exists x, collection_result record = Ok x) records ->
  sync_collections s
  = for_each (fun c => raising (call (EvUploadCollection local_blaze c)
                                     (upload_collection local_blaze c)))
      (omap appended records)
      {| world := w';
         trace := trace s
                  ++ [EvPost "https://directory-emx2-acc.molgenis.net/ERIC/directory/graphql"
                        collections_query]
                  ++ omap printed records |}.
Proof.
  intros Hanswer Hstatus Hdocument Hdumps Hloads Hrecords Hall.
  unfold sync_collections.
  erewrite bind_Ok by (apply requests_post_Ok, Hanswer).
  rewrite Hstatus, Z.eqb_refl, lift_bind, Hdocument, lift_bind, Hdumps.
  unfold mbind at 1, M_bind at 1.
  rewrite populate_collection_unfold, Hloads. simpl. rewrite Hrecords.
  rewrite foldM_collection_pass_Ok by assumption. simpl.
  now rewrite <- app_assoc.
Qed.

End CollectionsRun.

(** X8.  A run of [sync_collections] that meets no exception: after an
    answer with status 200 whose records all reach the constructor, which
    raises nothing but [ValueError], and with uploads that return, the run
    returns normally, and what it has done is, in this order: the request,
    one printed line for each record the constructor refused, one upload for
    each collection it accepted. *)
Theorem X8_a_run_of_sync_collections
    {model : MiabisModel} {codec : Json} {remote : Remote}
    (s : state) (r : response) (w' : World)
    (json_data : value) (json_str : string) (records : list value) :
  (forall url q, post url q (world s) = (w', Ok r)) ->
  status_code r = 200%Z ->
  json r = Ok json_data ->
  json_dumps json_data = Ok json_str ->
  json_loads json_str = Ok json_data ->
  records_of "Collections" json_data = Ok records ->
  Forall (fun record => exists x, collection_result record = Ok x) records ->
  Forall (fun c => forall w, snd (upload_collection local_blaze c w) = None)
    (omap appended records) ->
  exists w,
    sync_collections s
    = ({| world := w;
          trace := trace s
                   ++ [EvPost "https://directory-emx2-acc.molgenis.net/ERIC/directory/graphql"
                         collections_query]
                   ++ omap printed records
                   ++ map (EvUploadCollection local_blaze) (omap appended records) |},
       Ok tt).
Proof.
  intros Hanswer Hstatus Hdocument Hdumps Hloads Hrecords Hall Huploads.
  rewrite (sync_collections_200_run s r w' json_data json_str records) by assumption.
  destruct (uploads_all_return (omap appended records)
              {| world := w';
                 trace := trace s
                          ++ [EvPost "https://directory-emx2-acc.molgenis.net/ERIC/directory/graphql"
                                collections_query]
                          ++ omap printed records |} Huploads) as [w Hw].
  exists w. rewrite Hw. simpl. now rewrite <- !app_assoc.
Qed.

(** X9.  An upload that raises ends the run of [sync_collections]: the
    uploads are not under a [try], so when the upload of an accepted
    collection raises, after uploads that returned, the run raises that
    exception, and the collections behind it are not uploaded. *)
Theorem X9_an_upload_that_raises_ends_the_run
    {model : MiabisModel} {codec : Json} {remote : Remote}
    (s : state) (r : response) (w' : World)
    (json_data : value) (json_str : string) (records : list value)
    (before after : list Collection.t) (c : Collection.t) (e : exn) :
  (forall url q, post url q (world s) = (w', Ok r)) ->
  status_code r = 200%Z ->
  json r = Ok json_data ->
  json_dumps json_data = Ok json_str ->
  json_loads json_str = Ok json_data ->
  records_of "Collections" json_data = Ok records ->
  Forall (fun record => exists x, collection_result record = Ok x) records ->
  omap appended records = before ++ c :: after ->
  Forall (fun b => forall w, snd (upload_collection local_blaze b w) = None) before ->
  (forall w, snd (upload_collection local_blaze c w) = Some e) ->
  snd (sync_collections s) = Raise e
  /\ uploaded_collections (trace (fst (sync_collections s)))
     = uploaded_collections (trace s) ++ before ++ [c].
Proof.
  intros Hanswer Hstatus Hdocument Hdumps Hloads Hrecords Hall Hsplit Hbefore Hc.
  rewrite (sync_collections_200_run s r w' json_data json_str records) by assumption.
  rewrite Hsplit.
  destruct (uploads_stop before after c e
              {| world := w';
                 trace := trace s
                          ++ [EvPost "https://directory-emx2-acc.molgenis.net/ERIC/directory/graphql"
                                collections_query]
                          ++ omap printed records |} Hbefore Hc) as [w Hw].
  rewrite Hw. split; [reflexivity|]. cbn [fst trace].
  rewrite !uploaded_collections_app, uploaded_collections_printed,
    uploaded_collections_uploads.
  change (uploaded_collections [EvPost _ collections_query]) with (@nil Collection.t).
  now rewrite !app_nil_r.
Qed.

(** An instance of X8: the three records of [collections_payload] with a
    model library that refuses an empty identifier; the run returns after
    the request, one printed line and two uploads. *)
Lemma X8_witness :
  snd (sync_collections (model := requiring_identifier)
         (codec := decoding_to collections_payload)
         (remote := answering (ok_response collections_payload))
         (start (ok_response collections_payload)))
  = Ok tt
  /\ length (trace (fst (sync_collections (model := requiring_identifier)
                          (codec := decoding_to collections_payload)
                          (remote := answering (ok_response collections_payload))
                          (start (ok_response collections_payload)))))
     = 4.
Proof.
  destruct (X8_a_run_of_sync_collections (model := requiring_identifier)
    (codec := decoding_to collections_payload)
    (remote := answering (ok_response collections_payload))
    (start (ok_response collections_payload)) (ok_response collections_payload) tt
    collections_payload "" collection_records
    (fun _ _ => eq_refl) eq_refl eq_refl eq_refl eq_refl eq_refl) as [w Hw].
  - constructor; [eexists; vm_compute; reflexivity|].
    constructor; [eexists; vm_compute; reflexivity|].
    constructor; [eexists; vm_compute; reflexivity|].
    constructor.
  - apply Forall_forall. intros c _ w. reflexivity.
  - split; [exact (f_equal snd Hw)|].
    etransitivity; [exact (f_equal (fun out => length (trace (fst out))) Hw)|].
    vm_compute. reflexivity.
Defined.

(** An instance of X9: the same payload in a world whose uploads of
    collections raise; the first upload ends the run. *)
Lemma X9_witness :
  snd (sync_collections (model := requiring_identifier)
         (codec := decoding_to collections_payload)
         (remote := refusing_uploads (ok_response collections_payload))
         (start_refusing (ok_response collections_payload)))
  = Raise (OtherError "requests.exceptions.ConnectionError")
  /\ length (uploaded_collections
               (trace (fst (sync_collections (model := requiring_identifier)
                              (codec := decoding_to collections_payload)
                              (remote := refusing_uploads (ok_response collections_payload))
                              (start_refusing (ok_response collections_payload))))))
     = 1.
Proof.
  edestruct (X9_an_upload_that_raises_ends_the_run (model := requiring_identifier)
    (codec := decoding_to collections_payload)
    (remote := refusing_uploads (ok_response collections_payload))
    (start_refusing (ok_response collections_payload)) (ok_response collections_payload) tt
    collections_payload "" collection_records [])
    as [Hout Huploaded].
  - intros url q. reflexivity.
  - reflexivity.
  - reflexivity.
  - reflexivity.
  - reflexivity.
  - reflexivity.
  - constructor; [eexists; vm_compute; reflexivity|].
    constructor; [eexists; vm_compute; reflexivity|].
    constructor; [eexists; vm_compute; reflexivity|].
    constructor.
  - cbv. reflexivity.
  - constructor.
  - intros w. reflexivity.
  - split; [exact Hout|].
    etransitivity; [exact (f_equal (@length _) Huploaded)|]. reflexivity.
Defined.

(** ** Documents without records *)

(** X10.  After an answer with status 200 whose document has no [data],
    each entry point returns normally after its request and uploads
    nothing.  When [data] is [null], as in a document that reports errors,
    the second [get] of the builder raises [AttributeError], and the run
    raises it after its request: nothing is printed and nothing is
    uploaded. *)
Theorem X10_documents_without_records
    {model : MiabisModel} {codec : Json} {remote : Remote}
    (s : state) (r : response) (w' : World) (items : list (string * value))
    (json_str : string) :
  (forall url q, post url q (world s) = (w', Ok r)) ->
  status_code r = 200%Z ->
  json r = Ok (VDict items) ->
  json_dumps (VDict items) = Ok json_str ->
  json_loads json_str = Ok (VDict items) ->
  let after url q out : state * res unit :=
    ({| world := w'; trace := trace s ++ [EvPost url q] |}, out) in
  (dict_lookup "data" items = None ->
   sync_biobanks s
   = after "https://directory.bbmri-eric.eu/ERIC/directory/graphql" query (Ok tt)
   /\ sync_networks s
      = after "https://directory.bbmri-eric.eu/ERIC/directory/graphql" networks_query
          (Ok tt)
   /\ sync_collections s
      = after "https://directory-emx2-acc.molgenis.net/ERIC/directory/graphql"
          collections_query (Ok tt))
  /\ (dict_lookup "data" items = Some VNone ->
      sync_biobanks s
      = after "https://directory.bbmri-eric.eu/ERIC/directory/graphql" query
          (Raise AttributeError)
      /\ sync_networks s
         = after "https://directory.bbmri-eric.eu/ERIC/directory/graphql" networks_query
             (Raise AttributeError)
      /\ sync_collections s
         = after "https://directory-emx2-acc.molgenis.net/ERIC/directory/graphql"
             collections_query (Raise AttributeError)).
Proof.
  intros Hanswer Hstatus Hdocument Hdumps Hloads after.
  split; intros Hdata; (split; [|split]).
  all: unfold sync_biobanks, sync_networks, sync_collections, after.
  all: erewrite bind_Ok by (apply requests_post_Ok, Hanswer).
  all: rewrite Hstatus, Z.eqb_refl, lift_bind, Hdocument.
  all: try (rewrite lift_bind;
            unfold populate_biobank_from_json, populate_network_from_json;
            cbn [py_get mbind res_bind]; rewrite Hdata; reflexivity).
  all: rewrite lift_bind, Hdumps; unfold mbind at 1, M_bind at 1.
  all: rewrite populate_collection_unfold, Hloads.
  all: unfold records_of; cbn [py_get mbind res_bind]; rewrite Hdata; reflexivity.
Qed.

(** An instance: [sync_collections] on the document [errors_document]. *)
Lemma X10_witness :
  snd (sync_collections (model := accepting)
         (codec := decoding_to (VDict errors_document))
         (remote := answering (ok_response (VDict errors_document)))
         (start (ok_response (VDict errors_document))))
  = Raise AttributeError.
Proof.
  pose proof (X10_documents_without_records (model := accepting)
    (codec := decoding_to (VDict errors_document))
    (remote := answering (ok_response (VDict errors_document)))
    (start (ok_response (VDict errors_document))) (ok_response (VDict errors_document)) tt
    errors_document "" (fun _ _ => eq_refl) eq_refl eq_refl eq_refl eq_refl) as [_ H].
  destruct (H eq_refl) as (_ & _ & Hc).
  exact (f_equal snd Hc).
Defined.

(** ** [fetch_organization_fhir_id] *)

Section OrganizationRun.
Context {remote : Remote} {requests : Requests}.
Variables (fhir_server_url identifier : string) (s : state).

Lemma fetch_organization_unfold :
  fetch_organization_fhir_id fhir_server_url identifier s
  = let (w, answer) := search (fhir_server_url ++ "/Organization")%string identifier
                         (world s) in
    let s1 := {| world := w; trace := trace s |} in
    let failed e :=
      if caught e
      then ({| world := w;
               trace := trace s
                        ++ [EvPrint ("Failed to fetch organization: " ++ exn_str e)%string] |},
            Ok VNone)
      else (s1, Raise e) in
    match (response ← answer;
           raise_for_status response;;
           search_result ← json response;
           total ← py_get search_result "total" (VInt 0);
           found ← py_gt_0 total;
           if (found : bool) then
             id ← (entry ← py_getitem search_result "entry";
                   first ← py_getitem_0 entry;
                   resource ← py_getitem first "resource";
                   py_getitem resource "id");
             mret (Some id)
           else mret None) with
    | Ok (Some id) => (s1, Ok id)
    | Ok None =>
        ({| world := w;
            trace := trace s
                     ++ [EvPrint ("No organization found with identifier: "
                                  ++ identifier)%string] |},
         Ok VNone)
    | Raise e => failed e
    end.
Proof.
  unfold fetch_organization_fhir_id, try_except_RequestException, requests_get,
    mbind at 1, M_bind at 1.
  destruct (search _ identifier (world s)) as [w [r|e]]; [|reflexivity].
  cbn [mbind res_bind]. unfold mbind at 1, M_bind at 1, lift at 1.
  destruct (raise_for_status r) as [[]|e]; [|reflexivity].
  cbn [mbind res_bind]. rewrite lift_bind.
  destruct (json r) as [search_result|e]; [|reflexivity].
  cbn [mbind res_bind]. rewrite lift_bind.
  destruct (py_get search_result "total" (VInt 0)) as [total|e]; [|reflexivity].
  cbn [mbind res_bind]. rewrite lift_bind.
  destruct (py_gt_0 total) as [[]|e]; [| |reflexivity].
  - cbn [mbind res_bind]. unfold lift.
    destruct (entry ← py_getitem search_result "entry"; _) as [v|e]; reflexivity.
  - reflexivity.
Qed.

End OrganizationRun.

Lemma raise_for_status_passes {remote : Remote} {requests : Requests} (r : response) :
  (status_code r < 400 \/ 600 <= status_code r)%Z -> raise_for_status r = Ok tt.
Proof.
  intros H. unfold raise_for_status.
  destruct (Z.leb_spec 400 (status_code r)), (Z.ltb_spec (status_code r) 600);
    simpl; try reflexivity; lia.
Qed.

Lemma raise_for_status_raises {remote : Remote} {requests : Requests} (r : response) :
  (400 <= status_code r < 600)%Z -> raise_for_status r = Raise (HTTPError r).
Proof.
  intros H. unfold raise_for_status.
  destruct (Z.leb_spec 400 (status_code r)), (Z.ltb_spec (status_code r) 600);
    simpl; try reflexivity; lia.
Qed.

(** X11.  [fetch_organization_fhir_id] lets no exception of [requests]
    out: when the request raises one, when the status of the answer is 400
    to 599, or when decoding the answer raises one, the function prints
    ["Failed to fetch organization: "] with the text of the exception and
    returns [None]. *)
Theorem X11_request_failures_give_None
    {remote : Remote} {requests : Requests}
    (fhir_server_url identifier : string) (s : state) (w : World) (e : exn) :
  caught e = true ->
  search (fhir_server_url ++ "/Organization")%string identifier (world s) = (w, Raise e)
  \/ (exists r,
        search (fhir_server_url ++ "/Organization")%string identifier (world s) = (w, Ok r)
        /\ (400 <= status_code r < 600)%Z /\ e = HTTPError r)
  \/ (exists r,
        search (fhir_server_url ++ "/Organization")%string identifier (world s) = (w, Ok r)
        /\ (status_code r < 400 \/ 600 <= status_code r)%Z /\ json r = Raise e) ->
  fetch_organization_fhir_id fhir_server_url identifier s
  = ({| world := w;
        trace := trace s
                 ++ [EvPrint ("Failed to fetch organization: " ++ exn_str e)%string] |},
     Ok VNone).
Proof.
  intros Hcaught H. rewrite fetch_organization_unfold.
  destruct H as [-> | [(r & -> & Hstatus & ->) | (r & -> & Hstatus & Hjson)]].
  - cbn. now rewrite Hcaught.
  - cbn [mbind res_bind]. rewrite raise_for_status_raises by assumption.
    cbn. now rewrite Hcaught.
  - cbn [mbind res_bind]. rewrite raise_for_status_passes by assumption.
    cbn [mbind res_bind]. rewrite Hjson. cbn. now rewrite Hcaught.
Qed.

(** An instance: an answer with status 404. *)
Lemma X11_witness :
  fetch_organization_fhir_id (requests := searching not_found not_found)
    "http://localhost:8080/fhir" "bbmri-eric:ID:CZ_MMCI" (start not_found)
  = (@Build_state (answering not_found) tt
       [EvPrint "Failed to fetch organization: 404 Client Error: Not Found"],
     Ok VNone).
Proof.
  apply (X11_request_failures_give_None (remote := answering not_found)
           (requests := searching not_found not_found)
           "http://localhost:8080/fhir" "bbmri-eric:ID:CZ_MMCI" (start not_found) tt
           (OtherError "requests.exceptions.HTTPError")).
  - reflexivity.
  - right. left. exists not_found. split; [reflexivity|].
    split; [simpl; lia | reflexivity].
Defined.

(** X12.  When the search is answered with a status outside 400..599 and
    a document that is a mapping: if [total] is absent or a number that is
    not above 0, the function prints ["No organization found with
    identifier: "] with the identifier and returns [None]; if [total] is
    above 0 and the first entry has a resource with an [id], the function
    returns that [id] and prints nothing. *)
Theorem X12_organization_found_or_not
    {remote : Remote} {requests : Requests}
    (fhir_server_url identifier : string) (s : state) (w : World) (r : response)
    (items : list (string * value)) :
  search (fhir_server_url ++ "/Organization")%string identifier (world s) = (w, Ok r) ->
  (status_code r < 400 \/ 600 <= status_code r)%Z ->
  json r = Ok (VDict items) ->
  (py_gt_0 (spec_extract (VDict items) ["total"] (VInt 0)) = Ok false ->
   fetch_organization_fhir_id fhir_server_url identifier s
   = ({| world := w;
         trace := trace s
                  ++ [EvPrint ("No organization found with identifier: "
                               ++ identifier)%string] |},
      Ok VNone))
  /\ (py_gt_0 (spec_extract (VDict items) ["total"] (VInt 0)) = Ok true ->
      forall first rest resource id,
        dict_lookup "entry" items = Some (VList (VDict first :: rest)) ->
        dict_lookup "resource" first = Some (VDict resource) ->
        dict_lookup "id" resource = Some id ->
        fetch_organization_fhir_id fhir_server_url identifier s
        = ({| world := w; trace := trace s |}, Ok id)).
Proof.
  intros Hsearch Hstatus Hjson. rewrite <- default_extract.
  split.
  - intros Htotal. rewrite fetch_organization_unfold, Hsearch.
    cbn [mbind res_bind]. rewrite raise_for_status_passes by assumption.
    cbn [mbind res_bind]. rewrite Hjson. cbn [mbind res_bind py_get].
    now rewrite Htotal.
  - intros Htotal first rest resource id Hentry Hresource Hid.
    rewrite fetch_organization_unfold, Hsearch.
    cbn [mbind res_bind]. rewrite raise_for_status_passes by assumption.
    cbn [mbind res_bind]. rewrite Hjson. cbn [mbind res_bind py_get].
    rewrite Htotal. cbn [mbind res_bind py_getitem]. rewrite Hentry.
    cbn [mbind res_bind py_getitem_0 py_getitem]. rewrite Hresource.
    cbn [mbind res_bind py_getitem]. now rewrite Hid.
Qed.

(** An instance: the document [one_organization]. *)
Lemma X12_witness :
  fetch_organization_fhir_id
    (requests := searching not_found (ok_response one_organization))
    "http://localhost:8080/fhir" "bbmri-eric:ID:CZ_MMCI" (start not_found)
  = (@Build_state (answering not_found) tt [], Ok (VStr "DFFW3QMQC7KOYRHJ")).
Proof.
  refine (proj2 (X12_organization_found_or_not (remote := answering not_found)
    (requests := searching not_found (ok_response one_organization))
    "http://localhost:8080/fhir" "bbmri-eric:ID:CZ_MMCI" (start not_found) tt
    (ok_response one_organization) _ eq_refl _ eq_refl) eq_refl _ _ _ _ eq_refl eq_refl
    eq_refl).
  left. simpl. lia.
Defined.

(** X13.  The exceptions of the lookups are not of [requests], so they
    leave [fetch_organization_fhir_id]: with an answer whose status is
    outside 400..599, a document that is not a mapping raises
    [AttributeError], a [total] that is no number raises [TypeError], and a
    [total] above 0 without [entry] raises [KeyError]; nothing is printed. *)
Theorem X13_lookup_exceptions_leave_the_function
    {remote : Remote} {requests : Requests}
    (fhir_server_url identifier : string) (s : state) (w : World) (r : response)
    (search_result : value) :
  search (fhir_server_url ++ "/Organization")%string identifier (world s) = (w, Ok r) ->
  (status_code r < 400 \/ 600 <= status_code r)%Z ->
  json r = Ok search_result ->
  (is_dict search_result = false ->
   fetch_organization_fhir_id fhir_server_url identifier s
   = ({| world := w; trace := trace s |}, Raise AttributeError))
  /\ (forall items,
      search_result = VDict items ->
      py_gt_0 (spec_extract (VDict items) ["total"] (VInt 0)) = Raise TypeError ->
      fetch_organization_fhir_id fhir_server_url identifier s
      = ({| world := w; trace := trace s |}, Raise TypeError))
  /\ (forall items,
      search_result = VDict items ->
      py_gt_0 (spec_extract (VDict items) ["total"] (VInt 0)) = Ok true ->
      dict_lookup "entry" items = None ->
      fetch_organization_fhir_id fhir_server_url identifier s
      = ({| world := w; trace := trace s |}, Raise KeyError)).
Proof.
  intros Hsearch Hstatus Hjson.
  rewrite fetch_organization_unfold, Hsearch.
  cbn [mbind res_bind]. rewrite raise_for_status_passes by assumption.
  cbn [mbind res_bind]. rewrite Hjson. cbn [mbind res_bind].
  split; [|split].
  - intros Hdict. destruct search_result; try discriminate; reflexivity.
  - intros items -> Htotal. rewrite <- default_extract in Htotal.
    cbn [py_get mbind res_bind]. now rewrite Htotal.
  - intros items -> Htotal Hentry. rewrite <- default_extract in Htotal.
    cbn [py_get mbind res_bind]. rewrite Htotal.
    cbn [mbind res_bind py_getitem]. now rewrite Hentry.
Qed.

(** An instance: the document [{"total": null}]. *)
Lemma X13_witness :
  fetch_organization_fhir_id
    (requests := searching not_found (ok_response (VDict [("total", VNone)])))
    "http://localhost:8080/fhir" "bbmri-eric:ID:CZ_MMCI" (start not_found)
  = (@Build_state (answering not_found) tt [], Raise TypeError).
Proof.
  refine (proj1 (proj2 (X13_lookup_exceptions_leave_the_function
    (remote := answering not_found)
    (requests := searching not_found (ok_response (VDict [("total", VNone)])))
    "http://localhost:8080/fhir" "bbmri-eric:ID:CZ_MMCI" (start not_found) tt
    (ok_response (VDict [("total", VNone)])) _ eq_refl _ eq_refl))
    [("total", VNone)] eq_refl eq_refl).
  left. simpl. lia.
Defined.
